(** * Task Management API: the record service and the router, embedded

    A shallow embedding of [schemas.py], [crud.py] and [main.py].  The
    SQLAlchemy session is a pair of tables kept in insertion order, every
    handler takes the session it is given and returns the session it
    leaves behind, and an exception is a value of [outcome].  Modules are
    named after the Python modules so that [crud.update_user] and
    [main.update_user] stay apart, as they do in the source. *)

From Stdlib Require Import ZArith List String Bool Lia.
Import ListNotations.
Local Open Scope string_scope.
Local Open Scope list_scope.
Local Open Scope Z_scope.

Set Implicit Arguments.

(** ** Python values that cross the HTTP boundary *)

(** A JSON document: request bodies before validation, response bodies
    after serialisation. *)
Unset Elimination Schemes.
Inductive json : Type :=
| JNull
| JBool (b : bool)
| JInt (n : Z)
| JStr (s : string)
| JArr (items : list json)
| JObj (members : list (string * json)).
Set Elimination Schemes.

(** A field of a pydantic model read with [model_dump(exclude_unset=True)]:
    the key was left out of the body, or it was given, possibly as an
    explicit [null] ([Given None]). *)
Inductive field (A : Type) : Type :=
| Unset
| Given (v : option A).
Arguments Unset {A}.
Arguments Given {A} v.

(** [setattr(row, key, value)] for every key that [exclude_unset] keeps. *)
Definition setattr_field {A : Type} (f : field A) (old : option A) : option A :=
  match f with
  | Unset => old
  | Given v => v
  end.

(** Exceptions that leave a handler. *)
Inductive exn : Type :=
| HTTPException (status_code : Z) (detail : string)
| RequestValidationError
| ResponseValidationError
| IntegrityError
| TypeError.

Inductive outcome (A : Type) : Type :=
| Return (a : A)
| Raise (e : exn).
Arguments Return {A} a.
Arguments Raise {A} e.

(** Python truthiness of an [Optional[bool]] attribute: [None] is falsy. *)
Definition truthy (b : option bool) : bool :=
  match b with
  | Some true => true
  | _ => false
  end.

(** ** schemas.py *)

Module schemas.

Module UserCreate.
Record t : Type := mk {
  username : string;
  email : string;
  password : string;
  is_admin : option bool   (* Optional[bool] = False: omitted means Some false *)
}.
End UserCreate.

Module UserUpdate.
Record t : Type := mk {
  email : field string;
  password : field string;
  is_admin : field bool
}.
End UserUpdate.

Module User.
Record t : Type := mk {
  id : Z;
  username : string;
  email : string;
  is_admin : bool
}.
End User.

Module TaskCreate.
Record t : Type := mk {
  title : string;
  description : option string
}.
End TaskCreate.

Module TaskUpdate.
Record t : Type := mk {
  title : field string;
  description : field string;
  completed : field bool
}.
End TaskUpdate.

Module Task.
Record t : Type := mk {
  id : Z;
  title : string;
  description : option string;
  completed : bool
}.
End Task.

End schemas.

(** ** models.py *)

(** Modelled from the spec: [models.py] is not among the sources.  The
    rows carry the attributes that [crud.py] reads and writes: a user has
    id, username, email, password hash and admin flag, a task has id,
    title, description, completed and its owner's id.  An attribute that
    [crud.py] can assign [None] to is an [option]; the store keeps what it
    is given, the one constraint it enforces being the uniqueness of
    usernames. *)
Module models.

Module User.
Record t : Type := mk {
  id : Z;
  username : string;
  email : option string;
  hashed_password : string;
  is_admin : option bool
}.
End User.

Module Task.
Record t : Type := mk {
  id : Z;
  title : option string;
  description : option string;
  completed : option bool;
  owner_id : Z
}.
End Task.

(** Modelled from the spec: the admin flag and the completed flag default
    to false when a row is inserted without a value for them
    ([tests/test_api.py] asserts it for [completed]). *)
Definition is_admin_default : bool := false.
Definition completed_default : bool := false.

End models.

(** ** The session *)

(** Both tables, each in insertion order. *)
Record Session : Type := mkSession {
  users : list models.User.t;
  tasks : list models.Task.t
}.

(** The id of a new row: one more than the largest id in the table, 1 in
    an empty table. *)
Definition fresh_id (ids : list Z) : Z := 1 + fold_right Z.max 0 ids.

(** The integers the store holds and the driver binds as query parameters:
    signed 64-bit.  An id, a skip or a limit outside this range makes the
    query raise before it reaches a table; the lookups and the pages of
    this file are what the query returns inside the range. *)
Definition int64 (n : Z) : bool := (- 2 ^ 63 <=? n) && (n <? 2 ^ 63).

(** [query.offset(skip).limit(limit)], for a skip and a limit that the
    driver binds ([int64]): a negative offset skips nothing and a negative
    limit does not bound the page. *)
Definition offset {A : Type} (skip : Z) (rows : list A) : list A :=
  skipn (Z.to_nat skip) rows.

Definition limit {A : Type} (n : Z) (rows : list A) : list A :=
  if n <? 0 then rows else firstn (Z.to_nat n) rows.

(** Rewrite, or drop, the first row that satisfies [p]. *)
Fixpoint replace_first {A : Type} (p : A -> bool) (new : A) (rows : list A) : list A :=
  match rows with
  | [] => []
  | r :: rest => if p r then new :: rest else r :: replace_first p new rest
  end.

Fixpoint delete_first {A : Type} (p : A -> bool) (rows : list A) : list A :=
  match rows with
  | [] => []
  | r :: rest => if p r then rest else r :: delete_first p rest
  end.

(** ** External primitives *)

(** passlib's [CryptContext]: hashing draws a salt, verification does not. *)
Class CryptContext : Type := {
  hash : string -> string -> string;       (* salt, password *)
  verify : string -> string -> bool        (* plain password, stored hash *)
}.

(** Modelled from the spec: [auth.py] is not among the sources.  A token
    is issued for a subject, a lifetime in minutes and the time of issue;
    the lifetime is a configured constant. *)
Class TokenIssuer : Type := {
  ACCESS_TOKEN_EXPIRE_MINUTES : Z;
  create_access_token : string -> Z -> Z -> string
}.

(** ** crud.py *)

Module crud.
Section WithCryptContext.
Context {pwd_context : CryptContext}.

Definition get_password_hash (salt password : string) : string :=
  hash salt password.

Definition verify_password (plain_password hashed_password : string) : bool :=
  verify plain_password hashed_password.

Definition get_user_by_username (db : Session) (username : string)
  : option models.User.t :=
  find (fun u => String.eqb (models.User.username u) username) (users db).

(** The first row of the given id, for an id that the driver binds
    ([int64]); stored ids are such ids. *)
Definition get_user (db : Session) (user_id : Z) : option models.User.t :=
  find (fun u => models.User.id u =? user_id) (users db).

Definition get_users (db : Session) (skip lim : Z) : list models.User.t :=
  limit lim (offset skip (users db)).

(** [db.commit()] raises when the new row repeats a username; the row is
    otherwise appended with a fresh id. *)
Definition create_user (db : Session) (salt : string) (user : schemas.UserCreate.t)
  : Session * outcome models.User.t :=
  let hashed_password := get_password_hash salt (schemas.UserCreate.password user) in
  let db_user :=
    models.User.mk
      (fresh_id (map models.User.id (users db)))
      (schemas.UserCreate.username user)
      (Some (schemas.UserCreate.email user))
      hashed_password
      (Some (match schemas.UserCreate.is_admin user with
             | Some b => b
             | None => models.is_admin_default
             end)) in
  match get_user_by_username db (schemas.UserCreate.username user) with
  | Some _ => (db, Raise IntegrityError)
  | None => (mkSession (users db ++ [db_user]) (tasks db), Return db_user)
  end.

(** The password, when the payload carries one, is hashed before any
    attribute is set; hashing [None] raises. *)
Definition update_user (db : Session) (salt : string) (user_id : Z)
    (user_update : schemas.UserUpdate.t)
  : Session * outcome (option models.User.t) :=
  match get_user db user_id with
  | None => (db, Return None)
  | Some db_user =>
      match schemas.UserUpdate.password user_update with
      | Given None => (db, Raise TypeError)
      | pw =>
          let db_user' :=
            models.User.mk
              (models.User.id db_user)
              (models.User.username db_user)
              (setattr_field (schemas.UserUpdate.email user_update)
                 (models.User.email db_user))
              (match pw with
               | Given (Some password) => get_password_hash salt password
               | _ => models.User.hashed_password db_user
               end)
              (setattr_field (schemas.UserUpdate.is_admin user_update)
                 (models.User.is_admin db_user)) in
          (mkSession
             (replace_first (fun u => models.User.id u =? user_id) db_user' (users db))
             (tasks db),
           Return (Some db_user'))
      end
  end.

(** Modelled from the spec: what becomes of the tasks of a deleted user
    (cascade, nullify or keep) is decided by the relationship declared in
    [models.py], which is not among the sources, and the spec leaves it
    open.  [crud.py] itself deletes the user row and nothing else, and
    that is what the model does: the tasks stay in their table. *)
Definition delete_user (db : Session) (user_id : Z)
  : Session * option models.User.t :=
  match get_user db user_id with
  | None => (db, None)
  | Some db_user =>
      (mkSession (delete_first (fun u => models.User.id u =? user_id) (users db))
         (tasks db),
       Some db_user)
  end.

(** The row is built from the dumped payload and the owner id: the payload
    has a title and a description and nothing else, so [completed] takes
    the column default. *)
Definition create_task (db : Session) (task : schemas.TaskCreate.t) (user_id : Z)
  : Session * models.Task.t :=
  let db_task :=
    models.Task.mk
      (fresh_id (map models.Task.id (tasks db)))
      (Some (schemas.TaskCreate.title task))
      (schemas.TaskCreate.description task)
      (Some models.completed_default)
      user_id in
  (mkSession (users db) (tasks db ++ [db_task]), db_task).

Definition get_tasks (db : Session) (user_id skip lim : Z) : list models.Task.t :=
  limit lim
    (offset skip
       (filter (fun t => models.Task.owner_id t =? user_id) (tasks db))).

(** The first row of the given id, for an id that the driver binds
    ([int64]); stored ids are such ids. *)
Definition get_task (db : Session) (task_id : Z) : option models.Task.t :=
  find (fun t => models.Task.id t =? task_id) (tasks db).

Definition update_task (db : Session) (task_id : Z) (task_update : schemas.TaskUpdate.t)
  : Session * option models.Task.t :=
  match find (fun t => models.Task.id t =? task_id) (tasks db) with
  | None => (db, None)
  | Some db_task =>
      let db_task' :=
        models.Task.mk
          (models.Task.id db_task)
          (setattr_field (schemas.TaskUpdate.title task_update)
             (models.Task.title db_task))
          (setattr_field (schemas.TaskUpdate.description task_update)
             (models.Task.description db_task))
          (setattr_field (schemas.TaskUpdate.completed task_update)
             (models.Task.completed db_task))
          (models.Task.owner_id db_task) in
      (mkSession (users db)
         (replace_first (fun t => models.Task.id t =? task_id) db_task' (tasks db)),
       Some db_task')
  end.

Definition delete_task (db : Session) (task_id : Z)
  : Session * option models.Task.t :=
  match get_task db task_id with
  | None => (db, None)
  | Some db_task =>
      (mkSession (users db)
         (delete_first (fun t => models.Task.id t =? task_id) (tasks db)),
       Some db_task)
  end.

End WithCryptContext.
End crud.

(** ** What FastAPI does around a handler *)

Record Response : Type := mkResponse {
  status_code : Z;
  content : json
}.

Record OAuth2PasswordRequestForm : Type := mkForm {
  form_username : string;
  form_password : string
}.

(** An [HTTPException] becomes its status and a [detail] object; a body
    that fails validation is a 422; anything else that escapes is a 500. *)
Definition error_response (e : exn) : Response :=
  match e with
  | HTTPException status detail => mkResponse status (JObj [("detail", JStr detail)])
  | RequestValidationError => mkResponse 422 (JObj [("detail", JStr "Unprocessable Entity")])
  | _ => mkResponse 500 (JStr "Internal Server Error")
  end.

(** The value a handler returns is passed through the route's response
    model; a value the model rejects is a 500. *)
Definition respond {A : Type} (response_model : A -> option json) (o : outcome A)
  : Response :=
  match o with
  | Raise e => error_response e
  | Return a =>
      match response_model a with
      | Some body => mkResponse 200 body
      | None => error_response ResponseValidationError
      end
  end.

Fixpoint validate_all {A B : Type} (validate : A -> option B) (rows : list A)
  : option (list B) :=
  match rows with
  | [] => Some []
  | r :: rest =>
      match validate r, validate_all validate rest with
      | Some v, Some vs => Some (v :: vs)
      | _, _ => None
      end
  end.

(** [schemas.User] and [schemas.Task] read from a row's attributes
    ([from_attributes = True]); [email], [is_admin], [title] and
    [completed] are required to be present. *)
Module response_model.

Definition User_validate (row : models.User.t) : option schemas.User.t :=
  match models.User.email row, models.User.is_admin row with
  | Some email, Some is_admin =>
      Some (schemas.User.mk (models.User.id row) (models.User.username row)
              email is_admin)
  | _, _ => None
  end.

Definition User_dump (u : schemas.User.t) : json :=
  JObj [("id", JInt (schemas.User.id u));
        ("username", JStr (schemas.User.username u));
        ("email", JStr (schemas.User.email u));
        ("is_admin", JBool (schemas.User.is_admin u))].

Definition Task_validate (row : models.Task.t) : option schemas.Task.t :=
  match models.Task.title row, models.Task.completed row with
  | Some title, Some completed =>
      Some (schemas.Task.mk (models.Task.id row) title
              (models.Task.description row) completed)
  | _, _ => None
  end.

Definition Task_dump (t : schemas.Task.t) : json :=
  JObj [("id", JInt (schemas.Task.id t));
        ("title", JStr (schemas.Task.title t));
        ("description",
         match schemas.Task.description t with
         | Some d => JStr d
         | None => JNull
         end);
        ("completed", JBool (schemas.Task.completed t))].

Definition User (row : models.User.t) : option json :=
  option_map User_dump (User_validate row).

Definition List_User (rows : list models.User.t) : option json :=
  option_map (fun us => JArr (map User_dump us)) (validate_all User_validate rows).

Definition Task (row : models.Task.t) : option json :=
  option_map Task_dump (Task_validate row).

Definition Optional_Task (row : option models.Task.t) : option json :=
  match row with
  | Some r => Task r
  | None => None
  end.

Definition List_Task (rows : list models.Task.t) : option json :=
  option_map (fun ts => JArr (map Task_dump ts)) (validate_all Task_validate rows).

(** A route without a response model sends the returned object as it is. *)
Definition Any (body : json) : option json := Some body.

End response_model.

(** The last of several members with the same key is the one kept. *)
Fixpoint json_get (key : string) (members : list (string * json)) : option json :=
  match members with
  | [] => None
  | (k, v) :: rest =>
      match json_get key rest with
      | Some later => Some later
      | None => if String.eqb k key then Some v else None
      end
  end.

(** A request body read as [schemas.TaskCreate]: [title] must be a string,
    [description] may be missing, [null] or a string, and any other member
    of the body is ignored. *)
Definition TaskCreate_validate (body : json) : option schemas.TaskCreate.t :=
  match body with
  | JObj members =>
      match json_get "title" members with
      | Some (JStr title) =>
          match json_get "description" members with
          | None | Some JNull => Some (schemas.TaskCreate.mk title None)
          | Some (JStr description) =>
              Some (schemas.TaskCreate.mk title (Some description))
          | Some _ => None
          end
      | _ => None
      end
  | _ => None
  end.

(** ** main.py *)

(** A handler receives what FastAPI has resolved for it: the validated
    body or path parameters, the session, and for the protected routes the
    row of the authenticated caller.  Modelled from the spec:
    [get_current_user] lives in [auth.py], which is not among the sources;
    it hands the handler the stored row of the token's subject. *)
Module main.
Section WithPrimitives.
Context {pwd_context : CryptContext} {tokens : TokenIssuer}.

Definition create_user (db : Session) (salt : string) (user : schemas.UserCreate.t)
  : Session * outcome models.User.t :=
  match crud.get_user_by_username db (schemas.UserCreate.username user) with
  | Some _ => (db, Raise (HTTPException 400 "Username already registered"))
  | None => crud.create_user db salt user
  end.

Definition login (db : Session) (now : Z) (form_data : OAuth2PasswordRequestForm)
  : Session * outcome json :=
  match crud.get_user_by_username db (form_username form_data) with
  | None => (db, Raise (HTTPException 401 "Incorrect username or password"))
  | Some user =>
      if negb (crud.verify_password (form_password form_data)
                 (models.User.hashed_password user))
      then (db, Raise (HTTPException 401 "Incorrect username or password"))
      else
        let access_token_expires := ACCESS_TOKEN_EXPIRE_MINUTES in
        let access_token :=
          create_access_token (models.User.username user) access_token_expires now in
        (db, Return (JObj [("access_token", JStr access_token);
                           ("token_type", JStr "bearer")]))
  end.

Definition read_users (db : Session) (skip lim : Z) (current_user : models.User.t)
  : Session * outcome (list models.User.t) :=
  if negb (truthy (models.User.is_admin current_user))
  then (db, Raise (HTTPException 403 "Admin access required"))
  else (db, Return (crud.get_users db skip lim)).

Definition read_user (db : Session) (user_id : Z) (current_user : models.User.t)
  : Session * outcome models.User.t :=
  if negb (truthy (models.User.is_admin current_user))
     && negb (models.User.id current_user =? user_id)
  then (db, Raise (HTTPException 403 "Not authorized to view this user"))
  else
    match crud.get_user db user_id with
    | None => (db, Raise (HTTPException 404 "User not found"))
    | Some db_user => (db, Return db_user)
    end.

Definition update_user (db : Session) (salt : string) (user_id : Z)
    (user : schemas.UserUpdate.t) (current_user : models.User.t)
  : Session * outcome models.User.t :=
  if negb (truthy (models.User.is_admin current_user))
     && negb (models.User.id current_user =? user_id)
  then (db, Raise (HTTPException 403 "Not authorized to update this user"))
  else
    match crud.update_user db salt user_id user with
    | (db', Raise e) => (db', Raise e)
    | (db', Return None) => (db', Raise (HTTPException 404 "User not found"))
    | (db', Return (Some db_user)) => (db', Return db_user)
    end.

Definition delete_user (db : Session) (user_id : Z) (current_user : models.User.t)
  : Session * outcome json :=
  if negb (truthy (models.User.is_admin current_user))
     && negb (models.User.id current_user =? user_id)
  then (db, Raise (HTTPException 403 "Not authorized to delete this user"))
  else
    match crud.delete_user db user_id with
    | (db', None) => (db', Raise (HTTPException 404 "User not found"))
    | (db', Some _) => (db', Return (JObj [("detail", JStr "User deleted")]))
    end.

Definition create_task (db : Session) (task : schemas.TaskCreate.t)
    (current_user : models.User.t)
  : Session * outcome models.Task.t :=
  let (db', db_task) := crud.create_task db task (models.User.id current_user) in
  (db', Return db_task).

Definition read_tasks (db : Session) (skip lim : Z) (current_user : models.User.t)
  : Session * outcome (list models.Task.t) :=
  (db, Return (crud.get_tasks db (models.User.id current_user) skip lim)).

Definition read_task (db : Session) (task_id : Z) (current_user : models.User.t)
  : Session * outcome models.Task.t :=
  match crud.get_task db task_id with
  | None => (db, Raise (HTTPException 404 "Task not found"))
  | Some db_task =>
      if negb (models.Task.owner_id db_task =? models.User.id current_user)
      then (db, Raise (HTTPException 403 "Not authorized to view this task"))
      else (db, Return db_task)
  end.

Definition update_task (db : Session) (task_id : Z) (task : schemas.TaskUpdate.t)
    (current_user : models.User.t)
  : Session * outcome (option models.Task.t) :=
  match crud.get_task db task_id with
  | None => (db, Raise (HTTPException 404 "Task not found"))
  | Some db_task =>
      if negb (truthy (models.User.is_admin current_user))
         && negb (models.Task.owner_id db_task =? models.User.id current_user)
      then (db, Raise (HTTPException 403 "Not authorized to update this task"))
      else
        let (db', updated) := crud.update_task db task_id task in
        (db', Return updated)
  end.

Definition delete_task (db : Session) (task_id : Z) (current_user : models.User.t)
  : Session * outcome json :=
  match crud.get_task db task_id with
  | None => (db, Raise (HTTPException 404 "Task not found"))
  | Some db_task =>
      if negb (truthy (models.User.is_admin current_user))
         && negb (models.Task.owner_id db_task =? models.User.id current_user)
      then (db, Raise (HTTPException 403 "Not authorized to delete this task"))
      else
        let (db', _) := crud.delete_task db task_id in
        (db', Return (JObj [("detail", JStr "Task deleted")]))
  end.

End WithPrimitives.
End main.

(** ** The routes *)

(** Each route is its handler followed by the response model that the
    decorator names.  [salt] is the salt that hashing draws during the
    request and [now] the clock that the token issuer reads. *)
Module app.
Section WithPrimitives.
Context {pwd_context : CryptContext} {tokens : TokenIssuer}.

Definition route {A : Type} (response_model : A -> option json)
    (r : Session * outcome A) : Session * Response :=
  (fst r, respond response_model (snd r)).

Definition POST_users (db : Session) (salt : string) (user : schemas.UserCreate.t) :=
  route response_model.User (main.create_user db salt user).

Definition POST_login (db : Session) (now : Z) (form_data : OAuth2PasswordRequestForm) :=
  route response_model.Any (main.login db now form_data).

Definition GET_users (db : Session) (skip lim : Z) (current_user : models.User.t) :=
  route response_model.List_User (main.read_users db skip lim current_user).

Definition GET_user (db : Session) (user_id : Z) (current_user : models.User.t) :=
  route response_model.User (main.read_user db user_id current_user).

Definition PUT_user (db : Session) (salt : string) (user_id : Z)
    (user : schemas.UserUpdate.t) (current_user : models.User.t) :=
  route response_model.User (main.update_user db salt user_id user current_user).

Definition DELETE_user (db : Session) (user_id : Z) (current_user : models.User.t) :=
  route response_model.Any (main.delete_user db user_id current_user).

Definition POST_tasks (db : Session) (task : schemas.TaskCreate.t)
    (current_user : models.User.t) :=
  route response_model.Task (main.create_task db task current_user).

(** The same route from the raw body: validation comes first. *)
Definition POST_tasks_body (db : Session) (body : json) (current_user : models.User.t)
  : Session * Response :=
  match TaskCreate_validate body with
  | None => (db, error_response RequestValidationError)
  | Some task => POST_tasks db task current_user
  end.

Definition GET_tasks (db : Session) (skip lim : Z) (current_user : models.User.t) :=
  route response_model.List_Task (main.read_tasks db skip lim current_user).

Definition GET_task (db : Session) (task_id : Z) (current_user : models.User.t) :=
  route response_model.Task (main.read_task db task_id current_user).

Definition PUT_task (db : Session) (task_id : Z) (task : schemas.TaskUpdate.t)
    (current_user : models.User.t) :=
  route response_model.Optional_Task (main.update_task db task_id task current_user).

Definition DELETE_task (db : Session) (task_id : Z) (current_user : models.User.t) :=
  route response_model.Any (main.delete_task db task_id current_user).

(** Every request an authenticated caller can send. *)
Inductive request : Type :=
| post_users (user : schemas.UserCreate.t)
| post_login (form_data : OAuth2PasswordRequestForm)
| get_users (skip lim : Z)
| get_user (user_id : Z)
| put_user (user_id : Z) (user : schemas.UserUpdate.t)
| delete_user (user_id : Z)
| post_tasks (task : schemas.TaskCreate.t)
| get_tasks (skip lim : Z)
| get_task (task_id : Z)
| put_task (task_id : Z) (task : schemas.TaskUpdate.t)
| delete_task (task_id : Z).

Definition handle (db : Session) (salt : string) (now : Z)
    (current_user : models.User.t) (req : request) : Session * Response :=
  match req with
  | post_users user => POST_users db salt user
  | post_login form_data => POST_login db now form_data
  | get_users skip lim => GET_users db skip lim current_user
  | get_user user_id => GET_user db user_id current_user
  | put_user user_id user => PUT_user db salt user_id user current_user
  | delete_user user_id => DELETE_user db user_id current_user
  | post_tasks task => POST_tasks db task current_user
  | get_tasks skip lim => GET_tasks db skip lim current_user
  | get_task task_id => GET_task db task_id current_user
  | put_task task_id task => PUT_task db task_id task current_user
  | delete_task task_id => DELETE_task db task_id current_user
  end.

End WithPrimitives.
End app.

(** ** Vocabulary of the specification *)

(** The predicate of the user routes: the caller is an admin or acts on
    their own id. *)
Definition self_or_admin (caller : models.User.t) (user_id : Z) : bool :=
  truthy (models.User.is_admin caller) || (models.User.id caller =? user_id).

(** The predicate of the task update and delete routes. *)
Definition owner_or_admin (caller : models.User.t) (task : models.Task.t) : bool :=
  truthy (models.User.is_admin caller)
  || (models.User.id caller =? models.Task.owner_id task).

(** [needle in hay] on strings. *)
Fixpoint contains (needle hay : string) : bool :=
  String.prefix needle hay
  || match hay with
     | EmptyString => false
     | String _ rest => contains needle rest
     end.

(** The keys of a serialised object. *)
Definition keys (j : json) : list string :=
  match j with
  | JObj members => map fst members
  | _ => []
  end.

(** The [detail] of an error response. *)
Definition detail_of (r : Response) : option string :=
  match content r with
  | JObj [("detail", JStr d)] => Some d
  | _ => None
  end.

Definition with_hashed_password (h : string) (u : models.User.t) : models.User.t :=
  models.User.mk (models.User.id u) (models.User.username u) (models.User.email u)
    h (models.User.is_admin u).

Definition with_owner (o : Z) (t : models.Task.t) : models.Task.t :=
  models.Task.mk (models.Task.id t) (models.Task.title t) (models.Task.description t)
    (models.Task.completed t) o.

(** A user row with its password hash blanked, and a session of such
    rows: what remains when the stored hashes are set aside. *)
Definition public (u : models.User.t) : models.User.t :=
  with_hashed_password "" u.

Definition public_db (db : Session) : Session :=
  mkSession (map public (users db)) (tasks db).

(** [body] is the serialisation of the id, username, email and admin flag
    of [row], and of nothing else. *)
Definition shown_as (row : models.User.t) (body : json) : Prop :=
  exists (email : string) (is_admin : bool),
    models.User.email row = Some email
    /\ models.User.is_admin row = Some is_admin
    /\ body = JObj [("id", JInt (models.User.id row));
                    ("username", JStr (models.User.username row));
                    ("email", JStr email);
                    ("is_admin", JBool is_admin)].

(** ** A small instance to run the model on *)

Module sample.

(** A stand-in hasher: the stored hash is the salt, a dollar sign and the
    password; verification compares what follows the first dollar sign. *)
Definition after_dollar (h : string) : option string :=
  match String.index 0 "$" h with
  | Some n => Some (String.substring (S n) (String.length h - S n) h)
  | None => None
  end.

Definition pwd_context : CryptContext := {|
  hash := fun salt password => (salt ++ "$" ++ password)%string;
  verify := fun plain hashed =>
    match after_dollar hashed with
    | Some p => String.eqb p plain
    | None => false
    end
|}.

Definition tokens : TokenIssuer := {|
  ACCESS_TOKEN_EXPIRE_MINUTES := 30;
  create_access_token := fun sub _ _ => ("token:" ++ sub)%string
|}.

Definition alice : models.User.t :=
  models.User.mk 1 "alice" (Some "alice@example.com") "s1$alicepass" (Some true).

Definition bob : models.User.t :=
  models.User.mk 2 "bob" (Some "bob@example.com") "s2$bobpass" (Some false).

Definition bobs_task : models.Task.t :=
  models.Task.mk 1 (Some "Write report") None (Some false) 2.

Definition alices_task : models.Task.t :=
  models.Task.mk 2 (Some "Review") (Some "the report") (Some false) 1.

Definition db : Session := mkSession [alice; bob] [bobs_task; alices_task].

Definition only_completed (b : bool) : schemas.TaskUpdate.t :=
  schemas.TaskUpdate.mk Unset Unset (Given (Some b)).

Definition null_title : schemas.TaskUpdate.t :=
  schemas.TaskUpdate.mk (Given None) Unset Unset.

Definition make_admin : schemas.UserUpdate.t :=
  schemas.UserUpdate.mk Unset Unset (Given (Some true)).

Definition new_email : schemas.UserUpdate.t :=
  schemas.UserUpdate.mk (Given (Some "new@example.com")) Unset Unset.

Definition carol : schemas.UserCreate.t :=
  schemas.UserCreate.mk "carol" "carol@example.com" "carolpass" (Some false).

Definition carol_again : schemas.UserCreate.t :=
  schemas.UserCreate.mk "carol" "dup@example.com" "duppass" (Some false).

End sample.

(** ** database.py *)

(** The module-level configuration: [env] is what [os.getenv] finds under
    DATABASE_URL once the dotenv file is loaded, [None] when the variable
    is not set. *)
Module database.

(** [if not SQLALCHEMY_DATABASE_URL]: an unset variable and an empty one
    are both replaced by the local sqlite file. *)
Definition SQLALCHEMY_DATABASE_URL (env : option string) : string :=
  match env with
  | None => "sqlite:///./test.db"
  | Some "" => "sqlite:///./test.db"
  | Some url => url
  end.

(** The keyword arguments handed to the driver, as a dict of flags. *)
Definition connect_args (env : option string) : list (string * bool) :=
  if String.prefix "sqlite" (SQLALCHEMY_DATABASE_URL env)
  then [("check_same_thread", false)]
  else [].

End database.

(** ** Keys of the store *)

(** No two users share an id or a username and no two tasks share an id. *)
Definition well_keyed (db : Session) : Prop :=
  NoDup (map models.User.id (users db))
  /\ NoDup (map models.User.username (users db))
  /\ NoDup (map models.Task.id (tasks db)).

(** The session before any request. *)
Definition empty_session : Session := mkSession [] [].

(** The requests that only read: the GET routes and the login. *)
Definition reads_only (req : app.request) : bool :=
  match req with
  | app.post_login _ | app.get_users _ _ | app.get_user _
  | app.get_tasks _ _ | app.get_task _ => true
  | _ => false
  end.

(** * Properties *)

Unset Implicit Arguments.

(** ** Lookups under the table operations *)

Section Tables.
Variable A : Type.
Implicit Types (p q : A -> bool) (rows : list A).

Lemma find_app_found p rows more x :
  find p rows = Some x -> find p (rows ++ more) = Some x.
Proof.
  induction rows as [|r rest IH]; simpl; [discriminate|].
  destruct (p r); auto.
Qed.

Lemma find_app_missing p rows more :
  find p rows = None -> find p (rows ++ more) = find p more.
Proof.
  induction rows as [|r rest IH]; simpl; auto.
  destruct (p r); [discriminate | auto].
Qed.

Lemma find_satisfies p rows x : find p rows = Some x -> p x = true.
Proof. intros H. now apply find_some in H. Qed.

Lemma find_replace_first_same p new rows x :
  find p rows = Some x -> p new = true ->
  find p (replace_first p new rows) = Some new.
Proof.
  intros Hx Hnew.
  induction rows as [|r rest IH]; simpl in *; [discriminate|].
  destruct (p r) eqn:E; simpl.
  - now rewrite Hnew.
  - rewrite E. auto.
Qed.

Lemma find_replace_first_other p q new rows :
  (forall r, p r = true -> q r = false) -> q new = false ->
  find q (replace_first p new rows) = find q rows.
Proof.
  intros Hpq Hnew.
  induction rows as [|r rest IH]; simpl; auto.
  destruct (p r) eqn:E; simpl.
  - now rewrite Hnew, (Hpq r E).
  - now rewrite IH.
Qed.

Lemma find_delete_first_other p q rows :
  (forall r, p r = true -> q r = false) ->
  find q (delete_first p rows) = find q rows.
Proof.
  intros Hpq.
  induction rows as [|r rest IH]; simpl; auto.
  destruct (p r) eqn:E; simpl.
  - now rewrite (Hpq r E).
  - now rewrite IH.
Qed.

Lemma In_offset skip rows x : In x (offset skip rows) -> In x rows.
Proof.
  unfold offset. intros H.
  rewrite <- (firstn_skipn (Z.to_nat skip) rows).
  apply in_or_app. now right.
Qed.

Lemma In_limit n rows x : In x (limit n rows) -> In x rows.
Proof.
  unfold limit. destruct (n <? 0); auto.
  intros H. rewrite <- (firstn_skipn (Z.to_nat n) rows).
  apply in_or_app. now left.
Qed.

End Tables.

(** The guard of the user routes is the negation of [self_or_admin]. *)
Lemma user_guard (c : models.User.t) (user_id : Z) :
  negb (truthy (models.User.is_admin c)) && negb (models.User.id c =? user_id)
  = negb (self_or_admin c user_id).
Proof. unfold self_or_admin. now rewrite negb_orb. Qed.

(** The guard of the task update and delete routes, likewise. *)
Lemma task_guard (c : models.User.t) (t : models.Task.t) :
  negb (truthy (models.User.is_admin c))
  && negb (models.Task.owner_id t =? models.User.id c)
  = negb (owner_or_admin c t).
Proof. unfold owner_or_admin. now rewrite negb_orb, (Z.eqb_sym (models.User.id c)). Qed.

(** ** Order of the checks (C1) *)

Section Order.
Context {pwd_context : CryptContext}.

(** C1.  On PUT and DELETE /users/{id} the predicate "caller is admin or
    caller.id = id" is decided before the record service is reached: for
    an id that is not stored and a caller who fails the predicate the
    answer is 403, and the session is the one the request found.  On PUT
    and DELETE /tasks/{id} the lookup comes first: for a task id, that is
    an integer of the id column's range ([int64]), that is not stored the
    answer is 404 for every caller, admin or not. *)
Theorem forbidden_before_missing_for_users_missing_first_for_tasks :
  forall (db : Session) (salt : string) (caller anyone : models.User.t)
         (user_id task_id : Z)
         (user : schemas.UserUpdate.t) (task : schemas.TaskUpdate.t),
    crud.get_user db user_id = None ->
    self_or_admin caller user_id = false ->
    int64 task_id = true ->
    crud.get_task db task_id = None ->
    app.PUT_user db salt user_id user caller
      = (db, error_response (HTTPException 403 "Not authorized to update this user"))
    /\ app.DELETE_user db user_id caller
      = (db, error_response (HTTPException 403 "Not authorized to delete this user"))
    /\ app.PUT_task db task_id task anyone
      = (db, error_response (HTTPException 404 "Task not found"))
    /\ app.DELETE_task db task_id anyone
      = (db, error_response (HTTPException 404 "Task not found")).
Proof.
  intros db salt caller anyone user_id task_id user task _ Hpred _ Htask.
  unfold app.PUT_user, app.DELETE_user, app.PUT_task, app.DELETE_task, app.route,
    main.update_user, main.delete_user, main.update_task, main.delete_task.
  rewrite user_guard, Hpred, Htask. simpl. repeat split.
Qed.

End Order.

Lemma forbidden_before_missing_witness :
  status_code (snd (app.PUT_user (pwd_context := sample.pwd_context)
                      sample.db "s" 7 sample.new_email sample.bob)) = 403
  /\ status_code (snd (app.DELETE_user sample.db 7 sample.bob)) = 403
  /\ status_code (snd (app.PUT_task sample.db 9 (sample.only_completed true) sample.alice)) = 404
  /\ status_code (snd (app.DELETE_task sample.db 9 sample.alice)) = 404.
Proof.
  destruct (forbidden_before_missing_for_users_missing_first_for_tasks
              (pwd_context := sample.pwd_context)
              sample.db "s" sample.bob sample.alice 7 9
              sample.new_email (sample.only_completed true)
              eq_refl eq_refl eq_refl eq_refl) as (H1 & H2 & H3 & H4).
  rewrite H1, H2, H3, H4. repeat split.
Defined.

(** ** The admin flag on the task routes (C2) *)

(** The row that [crud.update_task] writes over [t]. *)
Lemma update_task_found (db : Session) (task_id : Z) (t : models.Task.t)
    (p : schemas.TaskUpdate.t) :
  crud.get_task db task_id = Some t ->
  crud.update_task db task_id p
  = (mkSession (users db)
       (replace_first (fun r => models.Task.id r =? task_id)
          (models.Task.mk (models.Task.id t)
             (setattr_field (schemas.TaskUpdate.title p) (models.Task.title t))
             (setattr_field (schemas.TaskUpdate.description p)
                (models.Task.description t))
             (setattr_field (schemas.TaskUpdate.completed p)
                (models.Task.completed t))
             (models.Task.owner_id t))
          (tasks db)),
     Some (models.Task.mk (models.Task.id t)
             (setattr_field (schemas.TaskUpdate.title p) (models.Task.title t))
             (setattr_field (schemas.TaskUpdate.description p)
                (models.Task.description t))
             (setattr_field (schemas.TaskUpdate.completed p)
                (models.Task.completed t))
             (models.Task.owner_id t))).
Proof.
  unfold crud.get_task, crud.update_task. intros H. now rewrite H.
Qed.

(** What holds of C2 on the code.  For a stored task [t] and an admin
    caller who does not own it: GET /tasks/{t.id} is a 403,
    DELETE /tasks/{t.id} is a 200, and PUT /tasks/{t.id} is a 200 whenever
    the task as updated has a title and a completed flag. *)
Theorem admin_is_refused_the_read_but_not_the_write :
  forall (db : Session) (t : models.Task.t) (caller : models.User.t)
         (task : schemas.TaskUpdate.t),
    crud.get_task db (models.Task.id t) = Some t ->
    models.User.is_admin caller = Some true ->
    models.User.id caller <> models.Task.owner_id t ->
    setattr_field (schemas.TaskUpdate.title task) (models.Task.title t) <> None ->
    setattr_field (schemas.TaskUpdate.completed task) (models.Task.completed t) <> None ->
    snd (app.GET_task db (models.Task.id t) caller)
      = error_response (HTTPException 403 "Not authorized to view this task")
    /\ status_code (snd (app.PUT_task db (models.Task.id t) task caller)) = 200
    /\ snd (app.DELETE_task db (models.Task.id t) caller)
      = mkResponse 200 (JObj [("detail", JStr "Task deleted")]).
Proof.
  intros db t caller task Hget Hadmin Hother Htitle Hcompleted.
  assert (Hneq : (models.Task.owner_id t =? models.User.id caller) = false)
    by (apply Z.eqb_neq; congruence).
  unfold app.GET_task, app.PUT_task, app.DELETE_task, app.route,
    main.read_task, main.update_task, main.delete_task.
  rewrite Hget, Hneq, Hadmin. simpl.
  repeat split.
  - rewrite (update_task_found db _ t task Hget). simpl.
    unfold response_model.Task, response_model.Task_validate. simpl.
    destruct (setattr_field (schemas.TaskUpdate.title task) (models.Task.title t));
      [|congruence].
    destruct (setattr_field (schemas.TaskUpdate.completed task)
                (models.Task.completed t)); [|congruence].
    reflexivity.
  - destruct (crud.delete_task db (models.Task.id t)). reflexivity.
Qed.

Lemma admin_is_refused_the_read_but_not_the_write_witness :
  status_code (snd (app.GET_task sample.db 1 sample.alice)) = 403
  /\ status_code (snd (app.PUT_task sample.db 1 (sample.only_completed true) sample.alice)) = 200
  /\ status_code (snd (app.DELETE_task sample.db 1 sample.alice)) = 200.
Proof.
  destruct (admin_is_refused_the_read_but_not_the_write
              sample.db sample.bobs_task sample.alice (sample.only_completed true)
              eq_refl eq_refl) as (H1 & H2 & H3).
  - simpl. lia.
  - simpl. discriminate.
  - simpl. discriminate.
  - exact (conj (f_equal status_code H1) (conj H2 (f_equal status_code H3))).
Defined.

(** C2 at the failing input.  An admin who does not own the stored task
    sends PUT /tasks/1 with a payload whose title is null: the guard lets
    the admin through, the null title is written to the stored task, and
    the response model then rejects the task, so the answer is a 500 and
    not the 200 of the claim. *)
Lemma admin_put_with_null_title_is_not_a_200 :
  crud.get_task sample.db (models.Task.id sample.bobs_task) = Some sample.bobs_task
  /\ models.User.is_admin sample.alice = Some true
  /\ models.User.id sample.alice <> models.Task.owner_id sample.bobs_task
  /\ status_code
       (snd (app.PUT_task sample.db (models.Task.id sample.bobs_task)
               sample.null_title sample.alice)) = 500
  /\ status_code
       (snd (app.PUT_task sample.db (models.Task.id sample.bobs_task)
               sample.null_title sample.alice)) <> 200
  /\ option_map models.Task.title
       (crud.get_task
          (fst (app.PUT_task sample.db (models.Task.id sample.bobs_task)
                  sample.null_title sample.alice))
          (models.Task.id sample.bobs_task)) = Some None.
Proof.
  repeat split; try reflexivity; simpl; lia.
Qed.

(** ** Who can change the admin flag (C3) *)

Section AdminFlag.
Context {pwd_context : CryptContext} {tokens : TokenIssuer}.

Lemma get_user_same_table (db db' : Session) (uid : Z) :
  users db' = users db -> crud.get_user db' uid = crud.get_user db uid.
Proof. unfold crud.get_user. now intros ->. Qed.

Lemma id_eqb_apart (user_id uid : Z) :
  uid <> user_id ->
  forall r : models.User.t,
    (models.User.id r =? user_id) = true -> (models.User.id r =? uid) = false.
Proof. intros Hne r H. apply Z.eqb_eq in H. apply Z.eqb_neq. congruence. Qed.

(** Registration leaves every stored row where it was. *)
Lemma create_user_keeps_rows (db : Session) (salt : string)
    (user : schemas.UserCreate.t) (uid : Z) (u : models.User.t) :
  crud.get_user db uid = Some u ->
  crud.get_user (fst (main.create_user db salt user)) uid = Some u.
Proof.
  intros H. unfold main.create_user, crud.create_user.
  destruct (crud.get_user_by_username db (schemas.UserCreate.username user));
    simpl; auto.
  unfold crud.get_user in *. simpl. now apply find_app_found.
Qed.

(** [crud.update_user] and [crud.delete_user] touch the row of the id they
    are given and no row of another id. *)
Lemma update_user_keeps_other_rows (db : Session) (salt : string) (user_id : Z)
    (user : schemas.UserUpdate.t) (uid : Z) :
  uid <> user_id ->
  crud.get_user (fst (crud.update_user db salt user_id user)) uid
  = crud.get_user db uid.
Proof.
  intros Hne. unfold crud.update_user.
  destruct (crud.get_user db user_id) as [db_user|] eqn:E; [|reflexivity].
  assert (Hid : (models.User.id db_user =? uid) = false).
  { apply (id_eqb_apart user_id uid Hne). unfold crud.get_user in E.
    exact (find_satisfies _ _ _ _ E). }
  destruct (schemas.UserUpdate.password user) as [|[pw|]]; simpl;
    try reflexivity;
    unfold crud.get_user; simpl;
    (apply find_replace_first_other; [exact (id_eqb_apart user_id uid Hne) | exact Hid]).
Qed.

Lemma delete_user_keeps_other_rows (db : Session) (user_id uid : Z) :
  uid <> user_id ->
  crud.get_user (fst (crud.delete_user db user_id)) uid = crud.get_user db uid.
Proof.
  intros Hne. unfold crud.delete_user.
  destruct (crud.get_user db user_id); [|reflexivity].
  unfold crud.get_user; simpl.
  apply find_delete_first_other. exact (id_eqb_apart user_id uid Hne).
Qed.

(** The task routes and the read routes do not write the user table. *)
Lemma task_routes_keep_users (db : Session) (c : models.User.t) :
  (forall task, users (fst (main.create_task db task c)) = users db)
  /\ (forall task_id task, users (fst (main.update_task db task_id task c)) = users db)
  /\ (forall task_id, users (fst (main.delete_task db task_id c)) = users db).
Proof.
  split; [|split]; intros.
  - reflexivity.
  - unfold main.update_task, crud.update_task, crud.get_task.
    destruct (find _ (tasks db)); [|reflexivity].
    destruct (_ && _); reflexivity.
  - unfold main.delete_task, crud.delete_task.
    destruct (crud.get_task db task_id); [|reflexivity].
    destruct (_ && _); reflexivity.
Qed.

Lemma read_routes_keep_session (db : Session) (c : models.User.t) :
  (forall now form, fst (main.login db now form) = db)
  /\ (forall skip lim, fst (main.read_users db skip lim c) = db)
  /\ (forall user_id, fst (main.read_user db user_id c) = db)
  /\ (forall skip lim, fst (main.read_tasks db skip lim c) = db)
  /\ (forall task_id, fst (main.read_task db task_id c) = db).
Proof.
  split; [|split; [|split; [|split]]]; intros.
  - unfold main.login.
    destruct (crud.get_user_by_username db (form_username form)); [|reflexivity].
    destruct (negb _); reflexivity.
  - unfold main.read_users. destruct (negb _); reflexivity.
  - unfold main.read_user. destruct (_ && _); [reflexivity|].
    destruct (crud.get_user db user_id); reflexivity.
  - reflexivity.
  - unfold main.read_task.
    destruct (crud.get_task db task_id); [|reflexivity].
    destruct (negb _); reflexivity.
Qed.

(** C3, as the code has it.  A caller without the admin flag changes no
    stored user but their own: whatever the request, every user stored
    under another id is found unchanged afterwards.  Their own flag they
    can set: for a stored caller, PUT /users/{caller.id} with
    [is_admin = true] in the payload, and no null password in it, stores
    [is_admin = true] for the caller. *)
Theorem non_admin_changes_only_its_own_row :
  forall (db : Session) (salt : string) (now : Z) (caller : models.User.t),
    truthy (models.User.is_admin caller) = false ->
    (forall (req : app.request) (uid : Z) (u : models.User.t),
        uid <> models.User.id caller ->
        crud.get_user db uid = Some u ->
        crud.get_user (fst (app.handle db salt now caller req)) uid = Some u)
    /\ (forall (user : schemas.UserUpdate.t) (u : models.User.t),
           crud.get_user db (models.User.id caller) = Some u ->
           schemas.UserUpdate.password user <> Given None ->
           schemas.UserUpdate.is_admin user = Given (Some true) ->
           option_map models.User.is_admin
             (crud.get_user
                (fst (app.PUT_user db salt (models.User.id caller) user caller))
                (models.User.id caller))
           = Some (Some true)).
Proof.
  intros db salt now caller Hplain. split.
  - intros req uid u Hne Hu.
    destruct (task_routes_keep_users db caller) as (Tc & Tu & Td).
    destruct (read_routes_keep_session db caller) as (Rl & Rus & Ru & Rts & Rt).
    destruct req; unfold app.handle, app.POST_users, app.POST_login, app.GET_users,
      app.GET_user, app.PUT_user, app.DELETE_user, app.POST_tasks, app.GET_tasks,
      app.GET_task, app.PUT_task, app.DELETE_task, app.route; simpl fst.
    + now apply create_user_keeps_rows.
    + now rewrite Rl.
    + now rewrite Rus.
    + now rewrite Ru.
    + unfold main.update_user. rewrite Hplain. simpl.
      destruct (models.User.id caller =? user_id) eqn:E; simpl; [|exact Hu].
      apply Z.eqb_eq in E. subst user_id.
      rewrite <- Hu, <- (update_user_keeps_other_rows db salt _ user uid Hne).
      destruct (crud.update_user db salt (models.User.id caller) user)
        as [db' [[row|]|e]]; reflexivity.
    + unfold main.delete_user. rewrite Hplain. simpl.
      destruct (models.User.id caller =? user_id) eqn:E; simpl; [|exact Hu].
      apply Z.eqb_eq in E. subst user_id.
      rewrite <- Hu, <- (delete_user_keeps_other_rows db _ uid Hne).
      destruct (crud.delete_user db (models.User.id caller)) as [db' [row|]];
        reflexivity.
    + rewrite <- Hu. apply get_user_same_table, (Tc task).
    + exact Hu.
    + now rewrite Rt.
    + rewrite <- Hu. apply get_user_same_table, (Tu task_id task).
    + rewrite <- Hu. apply get_user_same_table, (Td task_id).
  - intros user u Hu Hpw Hflag.
    unfold app.PUT_user, app.route, main.update_user, crud.update_user. simpl fst.
    rewrite Z.eqb_refl, andb_false_r, Hu.
    assert (Hid : (models.User.id u =? models.User.id caller) = true)
      by (unfold crud.get_user in Hu; exact (find_satisfies _ _ _ _ Hu)).
    destruct (schemas.UserUpdate.password user) as [|[pw|]]; [| |congruence];
      simpl; unfold crud.get_user; simpl;
      erewrite find_replace_first_same; eauto; simpl; now rewrite Hflag.
Qed.

End AdminFlag.

Lemma non_admin_changes_only_its_own_row_witness :
  crud.get_user
    (fst (app.handle (pwd_context := sample.pwd_context) (tokens := sample.tokens)
            sample.db "s" 0 sample.bob (app.put_user 1 sample.make_admin))) 1
  = Some sample.alice
  /\ option_map models.User.is_admin
       (crud.get_user
          (fst (app.PUT_user (pwd_context := sample.pwd_context)
                  sample.db "s" 2 sample.make_admin sample.bob)) 2)
     = Some (Some true).
Proof.
  destruct (non_admin_changes_only_its_own_row
              (pwd_context := sample.pwd_context) (tokens := sample.tokens)
              sample.db "s" 0 sample.bob eq_refl) as (Hframe & Hown).
  split.
  - apply Hframe; [simpl; lia | reflexivity].
  - apply (Hown sample.make_admin sample.bob);
      [reflexivity | simpl; discriminate | reflexivity].
Defined.

(** C3, as stated, fails: bob is stored without the admin flag, sends
    PUT /users/2 for his own id with [is_admin = true], receives a 200
    and is stored as an admin from then on. *)
Lemma non_admin_sets_its_own_admin_flag :
  crud.get_user sample.db 2 = Some sample.bob
  /\ models.User.is_admin sample.bob = Some false
  /\ status_code
       (snd (app.PUT_user (pwd_context := sample.pwd_context)
               sample.db "s" 2 sample.make_admin sample.bob)) = 200
  /\ option_map models.User.is_admin
       (crud.get_user
          (fst (app.PUT_user (pwd_context := sample.pwd_context)
                  sample.db "s" 2 sample.make_admin sample.bob)) 2)
     = Some (Some true).
Proof. repeat split. Qed.

(** ** Partial update of a task (C4) *)

(** C4.  [crud.update_task] on a stored task [t] returns a task, which is
    also the one stored afterwards.  When the payload sets only
    [completed], the returned task has [t]'s title and description and the
    payload's [completed].  More generally every field the payload leaves
    unset keeps its value, the id and the owner always do, and neither the
    user table nor the task stored under any other id is touched. *)
Theorem update_task_leaves_unset_fields_alone :
  forall (db : Session) (t : models.Task.t) (task_update : schemas.TaskUpdate.t),
    crud.get_task db (models.Task.id t) = Some t ->
    exists (db' : Session) (t' : models.Task.t),
      crud.update_task db (models.Task.id t) task_update = (db', Some t')
      /\ crud.get_task db' (models.Task.id t) = Some t'
      /\ (forall v : option bool,
             schemas.TaskUpdate.title task_update = Unset ->
             schemas.TaskUpdate.description task_update = Unset ->
             schemas.TaskUpdate.completed task_update = Given v ->
             models.Task.title t' = models.Task.title t
             /\ models.Task.description t' = models.Task.description t
             /\ models.Task.completed t' = v)
      /\ (schemas.TaskUpdate.title task_update = Unset ->
          models.Task.title t' = models.Task.title t)
      /\ (schemas.TaskUpdate.description task_update = Unset ->
          models.Task.description t' = models.Task.description t)
      /\ (schemas.TaskUpdate.completed task_update = Unset ->
          models.Task.completed t' = models.Task.completed t)
      /\ models.Task.id t' = models.Task.id t
      /\ models.Task.owner_id t' = models.Task.owner_id t
      /\ users db' = users db
      /\ (forall other : Z,
             other <> models.Task.id t ->
             crud.get_task db' other = crud.get_task db other).
Proof.
  intros db t p Hget.
  rewrite (update_task_found db _ t p Hget).
  eexists. eexists. split; [reflexivity|].
  split.
  { unfold crud.get_task in *. simpl.
    apply find_replace_first_same with (x := t); [exact Hget|].
    simpl. apply Z.eqb_refl. }
  split.
  { intros v Ht Hd Hc. simpl. now rewrite Ht, Hd, Hc. }
  split; [intros H; simpl; now rewrite H|].
  split; [intros H; simpl; now rewrite H|].
  split; [intros H; simpl; now rewrite H|].
  split; [reflexivity|]. split; [reflexivity|]. split; [reflexivity|].
  intros other Hne. unfold crud.get_task. simpl.
  apply find_replace_first_other.
  - intros r Hr. apply Z.eqb_eq in Hr. apply Z.eqb_neq. congruence.
  - simpl. apply Z.eqb_neq. congruence.
Qed.

Lemma update_task_leaves_unset_fields_alone_witness :
  exists (db' : Session) (t' : models.Task.t),
    crud.update_task sample.db 1 (sample.only_completed true) = (db', Some t')
    /\ models.Task.title t' = Some "Write report"
    /\ models.Task.description t' = None
    /\ models.Task.completed t' = Some true.
Proof.
  destruct (update_task_leaves_unset_fields_alone
              sample.db sample.bobs_task (sample.only_completed true) eq_refl)
    as (db' & t' & Hrun & _ & Honly & _).
  destruct (Honly (Some true) eq_refl eq_refl eq_refl) as (Ht & Hd & Hc).
  exists db', t'. repeat split; assumption.
Defined.

(** ** Creation of a task (C5) *)

Lemma json_get_skips_other_key (key k : string) (v : json)
    (before after : list (string * json)) :
  k <> key ->
  json_get key (before ++ (k, v) :: after) = json_get key (before ++ after).
Proof.
  intros Hne. induction before as [|[k0 v0] rest IH]; simpl.
  - destruct (json_get key after); [reflexivity|].
    destruct (String.eqb_spec k key); [contradiction | reflexivity].
  - now rewrite IH.
Qed.

(** C5.  The task that [crud.create_task] returns has [completed = false]
    whatever the title, description and owner, and it is the task stored.
    On POST /tasks/ every body that validates is answered with a 200 whose
    task has [completed = false]; a [completed] member of the body,
    wherever it stands and whatever it holds, does not reach the payload. *)
Theorem created_task_is_not_completed :
  (forall (db : Session) (task : schemas.TaskCreate.t) (user_id : Z),
      models.Task.completed (snd (crud.create_task db task user_id)) = Some false
      /\ In (snd (crud.create_task db task user_id))
           (tasks (fst (crud.create_task db task user_id))))
  /\ (forall (db : Session) (body : json) (caller : models.User.t)
             (task : schemas.TaskCreate.t),
         TaskCreate_validate body = Some task ->
         snd (app.POST_tasks_body db body caller)
         = mkResponse 200
             (response_model.Task_dump
                (schemas.Task.mk
                   (fresh_id (map models.Task.id (tasks db)))
                   (schemas.TaskCreate.title task)
                   (schemas.TaskCreate.description task)
                   false)))
  /\ (forall (before after : list (string * json)) (v : json),
         TaskCreate_validate (JObj (before ++ ("completed", v) :: after))
         = TaskCreate_validate (JObj (before ++ after))).
Proof.
  split; [|split].
  - intros db task user_id. split; [reflexivity|].
    simpl. apply in_or_app. right. now left.
  - intros db body caller task Hbody.
    unfold app.POST_tasks_body. now rewrite Hbody.
  - intros before after v. unfold TaskCreate_validate.
    rewrite !json_get_skips_other_key by discriminate. reflexivity.
Qed.

Lemma created_task_is_not_completed_witness :
  snd (app.POST_tasks_body sample.db
         (JObj [("title", JStr "t"); ("completed", JBool true)]) sample.bob)
  = mkResponse 200
      (JObj [("id", JInt 3); ("title", JStr "t"); ("description", JNull);
             ("completed", JBool false)]).
Proof.
  destruct created_task_is_not_completed as (_ & Hroute & _).
  exact (Hroute sample.db
           (JObj [("title", JStr "t"); ("completed", JBool true)]) sample.bob
           (schemas.TaskCreate.mk "t" None) eq_refl).
Defined.

(** ** Registration (C6) *)

Section Registration.
Context {pwd_context : CryptContext}.

(** C6.  When the username is not stored, POST /users/ answers 200 with
    the user it has just stored under that name; a second POST /users/
    with the same username answers 400, its detail contains
    "already registered", and the session is left as the first call left
    it. *)
Theorem second_registration_is_rejected :
  forall (db : Session) (salt1 salt2 : string)
         (first second : schemas.UserCreate.t),
    crud.get_user_by_username db (schemas.UserCreate.username first) = None ->
    schemas.UserCreate.username second = schemas.UserCreate.username first ->
    (exists row : models.User.t,
        crud.get_user_by_username (fst (app.POST_users db salt1 first))
          (schemas.UserCreate.username first) = Some row
        /\ snd (app.POST_users db salt1 first)
           = mkResponse 200
               (response_model.User_dump
                  (schemas.User.mk
                     (models.User.id row)
                     (schemas.UserCreate.username first)
                     (schemas.UserCreate.email first)
                     (match schemas.UserCreate.is_admin first with
                      | Some b => b
                      | None => false
                      end))))
    /\ status_code (snd (app.POST_users (fst (app.POST_users db salt1 first))
                           salt2 second)) = 400
    /\ (exists d : string,
           detail_of (snd (app.POST_users (fst (app.POST_users db salt1 first))
                             salt2 second)) = Some d
           /\ contains "already registered" d = true)
    /\ fst (app.POST_users (fst (app.POST_users db salt1 first)) salt2 second)
       = fst (app.POST_users db salt1 first).
Proof.
  intros db salt1 salt2 first second Hfree Hsame.
  assert (Hstored :
    exists row,
      crud.get_user_by_username (fst (app.POST_users db salt1 first))
        (schemas.UserCreate.username first) = Some row
      /\ snd (main.create_user db salt1 first) = Return row
      /\ models.User.username row = schemas.UserCreate.username first
      /\ models.User.email row = Some (schemas.UserCreate.email first)
      /\ models.User.is_admin row
         = Some (match schemas.UserCreate.is_admin first with
                 | Some b => b
                 | None => false
                 end)).
  { unfold app.POST_users, app.route, main.create_user, crud.create_user.
    rewrite Hfree. simpl.
    eexists. split; [|repeat split].
    unfold crud.get_user_by_username in *. simpl.
    rewrite (find_app_missing _ _ _ _ Hfree). simpl.
    now rewrite String.eqb_refl. }
  destruct Hstored as (row & Hrow & Hret & Hname & Hemail & Hflag).
  split; [|split; [|split]].
  - exists row. split; [exact Hrow|].
    unfold app.POST_users, app.route in *. simpl snd. rewrite Hret. simpl.
    unfold response_model.User, response_model.User_validate.
    now rewrite Hemail, Hflag, Hname.
  - unfold app.POST_users at 1. unfold app.route, main.create_user.
    rewrite Hsame, Hrow. reflexivity.
  - exists "Username already registered". split; [|reflexivity].
    unfold app.POST_users at 1. unfold app.route, main.create_user.
    rewrite Hsame, Hrow. reflexivity.
  - unfold app.POST_users at 1. unfold app.route, main.create_user.
    rewrite Hsame, Hrow. reflexivity.
Qed.

End Registration.

Lemma second_registration_is_rejected_witness :
  status_code
    (snd (app.POST_users (pwd_context := sample.pwd_context)
            (fst (app.POST_users (pwd_context := sample.pwd_context)
                    sample.db "s1" sample.carol))
            "s2" sample.carol_again)) = 400.
Proof.
  destruct (second_registration_is_rejected
              (pwd_context := sample.pwd_context)
              sample.db "s1" "s2" sample.carol sample.carol_again
              eq_refl eq_refl) as (_ & H400 & _).
  exact H400.
Defined.

(** ** Login (C7, C10) *)

Section Login.
Context {pwd_context : CryptContext} {tokens : TokenIssuer}.

(** C7.  POST /login answers 200 with an access token when the username
    is stored and the password verifies against that user's stored hash;
    it answers 401 when the username is not stored, and 401 when the
    password does not verify. *)
Theorem login_accepts_exactly_the_right_credentials :
  forall (db : Session) (now : Z) (form_data : OAuth2PasswordRequestForm),
    (forall user : models.User.t,
        crud.get_user_by_username db (form_username form_data) = Some user ->
        crud.verify_password (form_password form_data)
          (models.User.hashed_password user) = true ->
        snd (app.POST_login db now form_data)
        = mkResponse 200
            (JObj [("access_token",
                    JStr (create_access_token (models.User.username user)
                            ACCESS_TOKEN_EXPIRE_MINUTES now));
                   ("token_type", JStr "bearer")]))
    /\ (crud.get_user_by_username db (form_username form_data) = None ->
        status_code (snd (app.POST_login db now form_data)) = 401)
    /\ (forall user : models.User.t,
           crud.get_user_by_username db (form_username form_data) = Some user ->
           crud.verify_password (form_password form_data)
             (models.User.hashed_password user) = false ->
           status_code (snd (app.POST_login db now form_data)) = 401).
Proof.
  intros db now form_data.
  unfold app.POST_login, app.route, main.login.
  split; [|split].
  - intros user Hu Hv. now rewrite Hu, Hv.
  - intros Hu. now rewrite Hu.
  - intros user Hu Hv. now rewrite Hu, Hv.
Qed.

(** C10.  A login that fails because the username is not stored and a
    login that fails because the password does not verify are answered
    alike: status 401 and the detail "Incorrect username or password" in
    both cases, whatever the sessions, forms and clocks. *)
Theorem login_failures_look_the_same :
  forall (db1 db2 : Session) (now1 now2 : Z)
         (unknown wrong : OAuth2PasswordRequestForm) (user : models.User.t),
    crud.get_user_by_username db1 (form_username unknown) = None ->
    crud.get_user_by_username db2 (form_username wrong) = Some user ->
    crud.verify_password (form_password wrong)
      (models.User.hashed_password user) = false ->
    snd (app.POST_login db1 now1 unknown) = snd (app.POST_login db2 now2 wrong)
    /\ snd (app.POST_login db1 now1 unknown)
       = mkResponse 401 (JObj [("detail", JStr "Incorrect username or password")])
    /\ fst (app.POST_login db1 now1 unknown) = db1
    /\ fst (app.POST_login db2 now2 wrong) = db2.
Proof.
  intros db1 db2 now1 now2 unknown wrong user Hnone Hsome Hbad.
  unfold app.POST_login, app.route, main.login.
  rewrite Hnone, Hsome, Hbad. simpl. repeat split.
Qed.

End Login.

Lemma login_accepts_exactly_the_right_credentials_witness :
  snd (app.POST_login (pwd_context := sample.pwd_context) (tokens := sample.tokens)
         sample.db 0 (mkForm "alice" "alicepass"))
  = mkResponse 200
      (JObj [("access_token", JStr "token:alice"); ("token_type", JStr "bearer")])
  /\ status_code
       (snd (app.POST_login (pwd_context := sample.pwd_context)
               (tokens := sample.tokens) sample.db 0 (mkForm "zed" "x"))) = 401
  /\ status_code
       (snd (app.POST_login (pwd_context := sample.pwd_context)
               (tokens := sample.tokens) sample.db 0 (mkForm "alice" "x"))) = 401.
Proof.
  split; [|split].
  - destruct (login_accepts_exactly_the_right_credentials
                (pwd_context := sample.pwd_context) (tokens := sample.tokens)
                sample.db 0 (mkForm "alice" "alicepass")) as (Hok & _ & _).
    exact (Hok sample.alice eq_refl eq_refl).
  - destruct (login_accepts_exactly_the_right_credentials
                (pwd_context := sample.pwd_context) (tokens := sample.tokens)
                sample.db 0 (mkForm "zed" "x")) as (_ & Hnone & _).
    exact (Hnone eq_refl).
  - destruct (login_accepts_exactly_the_right_credentials
                (pwd_context := sample.pwd_context) (tokens := sample.tokens)
                sample.db 0 (mkForm "alice" "x")) as (_ & _ & Hbad).
    exact (Hbad sample.alice eq_refl eq_refl).
Defined.

Lemma login_failures_look_the_same_witness :
  snd (app.POST_login (pwd_context := sample.pwd_context) (tokens := sample.tokens)
         sample.db 0 (mkForm "zed" "x"))
  = snd (app.POST_login (pwd_context := sample.pwd_context) (tokens := sample.tokens)
           sample.db 5 (mkForm "alice" "x")).
Proof.
  destruct (login_failures_look_the_same
              (pwd_context := sample.pwd_context) (tokens := sample.tokens)
              sample.db sample.db 0 5 (mkForm "zed" "x") (mkForm "alice" "x")
              sample.alice eq_refl eq_refl eq_refl) as (Hsame & _).
  exact Hsame.
Defined.

(** ** What a user looks like from outside (C8) *)

Section PublicRows.
Variable A : Type.

Lemma find_map (p : A -> bool) (f : A -> A) (rows : list A) :
  (forall r, p (f r) = p r) ->
  find p (map f rows) = option_map f (find p rows).
Proof.
  intros Hp. induction rows as [|r rest IH]; simpl; [reflexivity|].
  rewrite Hp. destruct (p r); [reflexivity | exact IH].
Qed.

Lemma page_map (f : A -> A) (skip lim : Z) (rows : list A) :
  limit lim (offset skip (map f rows)) = map f (limit lim (offset skip rows)).
Proof.
  unfold limit, offset. rewrite skipn_map.
  destruct (lim <? 0); [reflexivity | apply firstn_map].
Qed.

End PublicRows.

Lemma User_validate_public (row : models.User.t) :
  response_model.User_validate (public row) = response_model.User_validate row.
Proof. reflexivity. Qed.

Lemma validate_all_public (rows : list models.User.t) :
  validate_all response_model.User_validate (map public rows)
  = validate_all response_model.User_validate rows.
Proof.
  induction rows as [|r rest IH]; simpl; [reflexivity|].
  now rewrite IH.
Qed.

Lemma get_user_public (db : Session) (user_id : Z) :
  crud.get_user (public_db db) user_id = option_map public (crud.get_user db user_id).
Proof. unfold crud.get_user. simpl. now apply find_map. Qed.

Lemma get_user_by_username_public (db : Session) (name : string) :
  crud.get_user_by_username (public_db db) name
  = option_map public (crud.get_user_by_username db name).
Proof. unfold crud.get_user_by_username. simpl. now apply find_map. Qed.

(** Two lookups that agree once the hashes are set aside: both miss, or
    both find rows that differ in the hash at most. *)
Lemma lookups_agree_in_public (a b : option models.User.t) :
  option_map public a = option_map public b ->
  (a = None /\ b = None)
  \/ exists r1 r2, a = Some r1 /\ b = Some r2 /\ public r1 = public r2.
Proof.
  destruct a as [r1|], b as [r2|]; cbn [option_map]; try discriminate.
  - intros H. right. exists r1, r2. repeat split. congruence.
  - intros _. now left.
Qed.

Lemma public_attributes (r1 r2 : models.User.t) :
  public r1 = public r2 ->
  models.User.id r1 = models.User.id r2
  /\ models.User.username r1 = models.User.username r2
  /\ models.User.email r1 = models.User.email r2
  /\ models.User.is_admin r1 = models.User.is_admin r2.
Proof. unfold public, with_hashed_password. intros [= H1 H2 H3 H4]. auto. Qed.

Lemma User_of_public (r1 r2 : models.User.t) :
  public r1 = public r2 -> response_model.User r1 = response_model.User r2.
Proof.
  intros H. change (response_model.User (public r1) = response_model.User (public r2)).
  now rewrite H.
Qed.

(** What the [schemas.User] model lets through is the row's id, username,
    email and admin flag. *)
Lemma User_model_shape (row : models.User.t) (body : json) :
  response_model.User row = Some body -> shown_as row body.
Proof.
  unfold response_model.User, response_model.User_validate, shown_as.
  destruct (models.User.email row) as [e|], (models.User.is_admin row) as [a|];
    simpl; try discriminate.
  intros [= <-]. now exists e, a.
Qed.

Lemma List_User_model_shape (rows : list models.User.t) (us : list schemas.User.t) :
  validate_all response_model.User_validate rows = Some us ->
  Forall2 shown_as rows (map response_model.User_dump us).
Proof.
  revert us. induction rows as [|r rest IH]; simpl; intros us.
  - intros [= <-]. constructor.
  - destruct (response_model.User_validate r) as [u|] eqn:Eu; [|discriminate].
    destruct (validate_all response_model.User_validate rest) as [vs|];
      [|discriminate].
    intros [= <-]. simpl. constructor; [|now apply IH].
    apply User_model_shape. unfold response_model.User. now rewrite Eu.
Qed.

Section Representation.
Context {pwd_context : CryptContext}.

(** The row a successful [main.update_user] returns is the row stored
    under the id afterwards. *)
Lemma update_user_returns_stored (db : Session) (salt : string) (user_id : Z)
    (user : schemas.UserUpdate.t) (caller row : models.User.t) :
  snd (main.update_user db salt user_id user caller) = Return row ->
  crud.get_user (fst (main.update_user db salt user_id user caller)) user_id
  = Some row.
Proof.
  unfold main.update_user, crud.update_user.
  destruct (_ && _); [discriminate|].
  destruct (crud.get_user db user_id) as [u|] eqn:E; [|discriminate].
  assert (Hid : (models.User.id u =? user_id) = true)
    by (unfold crud.get_user in E; exact (find_satisfies _ _ _ _ E)).
  destruct (schemas.UserUpdate.password user) as [|[pw|]]; simpl;
    try discriminate;
    intros [= <-]; unfold crud.get_user in *; simpl;
    apply find_replace_first_same with (x := u); auto.
Qed.

(** C8.  The serialised user has the keys id, username, email and
    is_admin and no other, so neither a password nor a password hash.
    Every 200 of POST /users/, GET /users/{id} and PUT /users/{id} is the
    serialisation of the id, username, email and admin flag of the stored
    user concerned, and every 200 of GET /users/ is the list of these for
    the users of the page.  No answer of the four routes depends on a
    stored hash, on the salt or on the password sent: two sessions and
    requests that agree on everything else (for PUT, also on whether the
    password sent is null) are answered alike, and the response model
    gives the same body whatever hash the row holds. *)
Theorem user_responses_never_carry_the_hash :
  (forall u : schemas.User.t,
      keys (response_model.User_dump u) = ["id"; "username"; "email"; "is_admin"]
      /\ ~ In "password" (keys (response_model.User_dump u))
      /\ ~ In "hashed_password" (keys (response_model.User_dump u)))
  /\ (forall (db : Session) (salt : string) (user : schemas.UserCreate.t),
         status_code (snd (app.POST_users db salt user)) = 200 ->
         exists row : models.User.t,
           crud.get_user_by_username (fst (app.POST_users db salt user))
             (schemas.UserCreate.username user) = Some row
           /\ shown_as row (content (snd (app.POST_users db salt user))))
  /\ (forall (db : Session) (skip lim : Z) (caller : models.User.t),
         status_code (snd (app.GET_users db skip lim caller)) = 200 ->
         exists bodies : list json,
           content (snd (app.GET_users db skip lim caller)) = JArr bodies
           /\ Forall2 shown_as (crud.get_users db skip lim) bodies)
  /\ (forall (db : Session) (user_id : Z) (caller : models.User.t),
         status_code (snd (app.GET_user db user_id caller)) = 200 ->
         exists row : models.User.t,
           crud.get_user db user_id = Some row
           /\ shown_as row (content (snd (app.GET_user db user_id caller))))
  /\ (forall (db : Session) (salt : string) (user_id : Z)
             (user : schemas.UserUpdate.t) (caller : models.User.t),
         status_code (snd (app.PUT_user db salt user_id user caller)) = 200 ->
         exists row : models.User.t,
           crud.get_user (fst (app.PUT_user db salt user_id user caller)) user_id
           = Some row
           /\ shown_as row (content (snd (app.PUT_user db salt user_id user caller))))
  /\ (forall (db1 db2 : Session) (salt1 salt2 : string)
             (user1 user2 : schemas.UserCreate.t),
         public_db db1 = public_db db2 ->
         schemas.UserCreate.username user1 = schemas.UserCreate.username user2 ->
         schemas.UserCreate.email user1 = schemas.UserCreate.email user2 ->
         schemas.UserCreate.is_admin user1 = schemas.UserCreate.is_admin user2 ->
         snd (app.POST_users db1 salt1 user1) = snd (app.POST_users db2 salt2 user2))
  /\ (forall (db1 db2 : Session) (skip lim : Z) (caller1 caller2 : models.User.t),
         public_db db1 = public_db db2 ->
         public caller1 = public caller2 ->
         snd (app.GET_users db1 skip lim caller1)
         = snd (app.GET_users db2 skip lim caller2))
  /\ (forall (db1 db2 : Session) (user_id : Z) (caller1 caller2 : models.User.t),
         public_db db1 = public_db db2 ->
         public caller1 = public caller2 ->
         snd (app.GET_user db1 user_id caller1)
         = snd (app.GET_user db2 user_id caller2))
  /\ (forall (db1 db2 : Session) (salt1 salt2 : string) (user_id : Z)
             (user1 user2 : schemas.UserUpdate.t) (caller1 caller2 : models.User.t),
         public_db db1 = public_db db2 ->
         public caller1 = public caller2 ->
         schemas.UserUpdate.email user1 = schemas.UserUpdate.email user2 ->
         schemas.UserUpdate.is_admin user1 = schemas.UserUpdate.is_admin user2 ->
         (schemas.UserUpdate.password user1 = Given None
          <-> schemas.UserUpdate.password user2 = Given None) ->
         snd (app.PUT_user db1 salt1 user_id user1 caller1)
         = snd (app.PUT_user db2 salt2 user_id user2 caller2))
  /\ (forall (row : models.User.t) (h : string),
         response_model.User (with_hashed_password h row) = response_model.User row).
Proof.
  split; [|split; [|split; [|split; [|split; [|split; [|split; [|split; [|split]]]]]]]];
    [| | | | | | | | |intros row h; reflexivity].
  - intros u. split; [reflexivity|]. simpl.
    split; intros H; repeat (destruct H as [H|H]; [discriminate H|]); exact H.
  - intros db salt user.
    unfold app.POST_users, app.route, main.create_user, crud.create_user.
    destruct (crud.get_user_by_username db (schemas.UserCreate.username user))
      eqn:E; cbn [fst snd respond error_response status_code]; [discriminate|].
    intros _. eexists. split.
    + unfold crud.get_user_by_username in *. cbn [users].
      rewrite (find_app_missing _ _ _ _ E). cbn [find models.User.username].
      now rewrite String.eqb_refl.
    + apply User_model_shape. reflexivity.
  - intros db skip lim caller. unfold app.GET_users, app.route, main.read_users.
    destruct (negb _); cbn [fst snd respond error_response status_code];
      [discriminate|].
    unfold response_model.List_User.
    destruct (validate_all response_model.User_validate (crud.get_users db skip lim))
      as [us|] eqn:E; cbn; [|discriminate].
    intros _. eexists. split; [reflexivity|]. now apply List_User_model_shape.
  - intros db user_id caller. unfold app.GET_user, app.route, main.read_user.
    destruct (_ && _); cbn [fst snd respond error_response status_code];
      [discriminate|].
    destruct (crud.get_user db user_id) as [row|];
      cbn [fst snd respond error_response status_code]; [|discriminate].
    destruct (response_model.User row) as [body|] eqn:E; cbn; [|discriminate].
    intros _. exists row. split; [reflexivity|]. now apply User_model_shape.
  - intros db salt user_id user caller. unfold app.PUT_user, app.route.
    cbn [fst snd].
    destruct (snd (main.update_user db salt user_id user caller)) as [row|e] eqn:E.
    + pose proof (update_user_returns_stored db salt user_id user caller row E)
        as Hstored.
      cbn [respond].
      destruct (response_model.User row) as [body|] eqn:Ebody; cbn;
        [|discriminate].
      intros _. exists row. split; [exact Hstored|]. now apply User_model_shape.
    + cbn [respond]. revert E. unfold main.update_user, crud.update_user.
      destruct (_ && _); [cbn [snd]; intros [= <-]; cbn; discriminate|].
      destruct (crud.get_user db user_id);
        [|cbn [snd]; intros [= <-]; cbn; discriminate].
      destruct (schemas.UserUpdate.password user) as [|[pw|]]; cbn [snd];
        intros [= <-]; cbn; discriminate.
  - intros db1 db2 salt1 salt2 user1 user2 Hdb Hname Hemail Hflag.
    pose proof (f_equal (fun d => crud.get_user_by_username d
                                    (schemas.UserCreate.username user1)) Hdb) as Hfind.
    cbn beta in Hfind. rewrite !get_user_by_username_public in Hfind.
    assert (Hids : map models.User.id (users db1) = map models.User.id (users db2)).
    { pose proof (f_equal (fun d => map models.User.id (users d)) Hdb) as H.
      cbn [public_db users] in H. rewrite !map_map in H. exact H. }
    unfold app.POST_users, app.route, main.create_user, crud.create_user.
    rewrite <- Hname, <- Hemail, <- Hflag.
    destruct (lookups_agree_in_public _ _ Hfind) as [[-> ->] | (r1 & r2 & -> & -> & _)].
    + cbn. unfold response_model.User, response_model.User_validate. cbn.
      now rewrite Hids.
    + reflexivity.
  - intros db1 db2 skip lim caller1 caller2 Hdb Hcaller.
    destruct (public_attributes _ _ Hcaller) as (_ & _ & _ & Hadmin).
    pose proof (f_equal (fun d => crud.get_users d skip lim) Hdb) as Hpage.
    unfold crud.get_users in Hpage. cbn [public_db users] in Hpage.
    rewrite !page_map in Hpage.
    unfold app.GET_users, app.route, main.read_users. rewrite Hadmin.
    destruct (negb _); [reflexivity|]. cbn [snd respond].
    unfold response_model.List_User, crud.get_users.
    rewrite <- (validate_all_public (limit lim (offset skip (users db1)))).
    rewrite <- (validate_all_public (limit lim (offset skip (users db2)))).
    now rewrite Hpage.
  - intros db1 db2 user_id caller1 caller2 Hdb Hcaller.
    destruct (public_attributes _ _ Hcaller) as (Hid & _ & _ & Hadmin).
    pose proof (f_equal (fun d => crud.get_user d user_id) Hdb) as Hfind.
    cbn beta in Hfind. rewrite !get_user_public in Hfind.
    unfold app.GET_user, app.route, main.read_user. rewrite Hadmin, Hid.
    destruct (_ && _); [reflexivity|].
    destruct (lookups_agree_in_public _ _ Hfind)
      as [[-> ->] | (r1 & r2 & -> & -> & Hrows)]; [reflexivity|].
    cbn [snd respond]. now rewrite (User_of_public r1 r2 Hrows).
  - intros db1 db2 salt1 salt2 user_id user1 user2 caller1 caller2
      Hdb Hcaller Hemail Hflag Hnull.
    destruct (public_attributes _ _ Hcaller) as (Hid & _ & _ & Hadmin).
    pose proof (f_equal (fun d => crud.get_user d user_id) Hdb) as Hfind.
    cbn beta in Hfind. rewrite !get_user_public in Hfind.
    unfold app.PUT_user, app.route, main.update_user, crud.update_user.
    rewrite Hadmin, Hid.
    destruct (_ && _); [reflexivity|].
    destruct (lookups_agree_in_public _ _ Hfind)
      as [[-> ->] | (r1 & r2 & -> & -> & Hrows)]; [reflexivity|].
    destruct (public_attributes _ _ Hrows) as (Hrid & Hrname & Hremail & Hrflag).
    destruct (schemas.UserUpdate.password user1) as [|[pw1|]] eqn:E1;
      destruct (schemas.UserUpdate.password user2) as [|[pw2|]] eqn:E2;
      try (exfalso; destruct Hnull as [H1 H2];
           first [specialize (H1 eq_refl) | specialize (H2 eq_refl)];
           discriminate);
      try reflexivity;
      cbn [fst snd respond];
      unfold response_model.User, response_model.User_validate;
      cbn [models.User.id models.User.username models.User.email
             models.User.is_admin];
      now rewrite Hrid, Hrname, Hremail, Hrflag, Hemail, Hflag.
Qed.

End Representation.

Lemma user_responses_never_carry_the_hash_witness :
  (exists row : models.User.t,
      crud.get_user sample.db 2 = Some row
      /\ shown_as row (content (snd (app.GET_user sample.db 2 sample.bob))))
  /\ snd (app.GET_user
            (mkSession [with_hashed_password "h1" sample.alice;
                        with_hashed_password "h2" sample.bob]
               (tasks sample.db))
            2 sample.bob)
     = snd (app.GET_user sample.db 2 sample.bob).
Proof.
  destruct (user_responses_never_carry_the_hash (pwd_context := sample.pwd_context))
    as (_ & _ & _ & Hget & _ & _ & _ & Hsame & _ & _).
  split.
  - exact (Hget sample.db 2 sample.bob eq_refl).
  - exact (Hsame _ sample.db 2 sample.bob sample.bob eq_refl eq_refl).
Defined.

(** ** Listing and looking up tasks (C9) *)

Lemma with_owner_same_id (o : Z) (task_id : Z) (rows : list models.Task.t) :
  find (fun t => models.Task.id t =? task_id) (map (with_owner o) rows)
  = option_map (with_owner o) (find (fun t => models.Task.id t =? task_id) rows).
Proof.
  induction rows as [|r rest IH]; simpl; [reflexivity|].
  destruct (models.Task.id r =? task_id); [reflexivity | exact IH].
Qed.

Lemma find_by_unique_id (rows : list models.Task.t) (t : models.Task.t) :
  NoDup (map models.Task.id rows) ->
  In t rows ->
  find (fun r => models.Task.id r =? models.Task.id t) rows = Some t.
Proof.
  induction rows as [|r rest IH]; simpl; [contradiction|].
  intros Hnodup [-> | Hin].
  - now rewrite Z.eqb_refl.
  - inversion Hnodup as [|? ? Hfresh Hrest]; subst.
    destruct (Z.eqb_spec (models.Task.id r) (models.Task.id t)) as [E|_].
    + exfalso. apply Hfresh. rewrite E. now apply in_map.
    + now apply IH.
Qed.

(** C9.  Every task that GET /tasks/ hands back, before serialisation, is
    a stored task whose owner is the caller; the body is the serialisation
    of exactly those tasks.  [crud.get_task] returns the stored task of the
    given id and takes no caller: the answer is the same whoever owns the
    tasks, and the owner is checked in [main.read_task] only. *)
Theorem listing_is_owner_scoped_lookup_is_not :
  (forall (db : Session) (skip lim : Z) (caller : models.User.t),
      main.read_tasks db skip lim caller
      = (db, Return (crud.get_tasks db (models.User.id caller) skip lim))
      /\ snd (app.GET_tasks db skip lim caller)
         = respond response_model.List_Task
             (Return (crud.get_tasks db (models.User.id caller) skip lim))
      /\ (forall t : models.Task.t,
             In t (crud.get_tasks db (models.User.id caller) skip lim) ->
             models.Task.owner_id t = models.User.id caller /\ In t (tasks db)))
  /\ (forall (db : Session) (t : models.Task.t),
         NoDup (map models.Task.id (tasks db)) ->
         In t (tasks db) ->
         crud.get_task db (models.Task.id t) = Some t)
  /\ (forall (db : Session) (task_id owner : Z),
         crud.get_task (mkSession (users db) (map (with_owner owner) (tasks db)))
           task_id
         = option_map (with_owner owner) (crud.get_task db task_id)).
Proof.
  split; [|split].
  - intros db skip lim caller. split; [reflexivity|]. split; [reflexivity|].
    intros t Hin. unfold crud.get_tasks in Hin.
    apply In_limit, In_offset, filter_In in Hin.
    destruct Hin as [Hstored Howner]. apply Z.eqb_eq in Howner. now split.
  - intros db t Hnodup Hin. now apply find_by_unique_id.
  - intros db task_id owner. apply with_owner_same_id.
Qed.

Lemma listing_is_owner_scoped_lookup_is_not_witness :
  (forall t : models.Task.t,
      In t (crud.get_tasks sample.db (models.User.id sample.bob) 0 100) ->
      models.Task.owner_id t = models.User.id sample.bob /\ In t (tasks sample.db))
  /\ crud.get_task sample.db (models.Task.id sample.bobs_task) = Some sample.bobs_task
  /\ crud.get_task sample.db (models.Task.id sample.alices_task)
     = Some sample.alices_task.
Proof.
  destruct listing_is_owner_scoped_lookup_is_not as (Hlist & Hlookup & _).
  assert (Hids : NoDup (map models.Task.id (tasks sample.db))).
  { simpl. repeat constructor; simpl; intuition discriminate. }
  split; [|split].
  - destruct (Hlist sample.db 0 100 sample.bob) as (_ & _ & Hrows). exact Hrows.
  - apply Hlookup; [exact Hids | simpl; auto].
  - apply Hlookup; [exact Hids | simpl; auto].
Defined.

(** * Further properties of the record service and the router *)

(** ** Fresh ids and keyed tables *)

Lemma fresh_id_above (ids : list Z) (x : Z) : In x ids -> x < fresh_id ids.
Proof.
  unfold fresh_id. induction ids as [|y rest IH]; cbn [fold_right In];
    [contradiction|].
  pose proof (Z.le_max_l y (fold_right Z.max 0 rest)).
  pose proof (Z.le_max_r y (fold_right Z.max 0 rest)).
  intros [-> | Hin]; [lia | specialize (IH Hin); lia].
Qed.

Lemma fresh_id_is_new (ids : list Z) : ~ In (fresh_id ids) ids.
Proof. intros H. apply fresh_id_above in H. lia. Qed.

Section KeyedTables.
Variables (A K : Type) (key : A -> K).
Implicit Types (p q : A -> bool) (rows : list A).

Lemma find_missing_when_key_absent q rows (k : K) :
  (forall r, q r = true -> key r = k) ->
  ~ In k (map key rows) -> find q rows = None.
Proof.
  intros Hq Hk. induction rows as [|r rest IH]; simpl; [reflexivity|].
  destruct (q r) eqn:E.
  - exfalso. apply Hk. simpl. left. now apply Hq.
  - apply IH. intros Hin. apply Hk. simpl. now right.
Qed.

Lemma key_absent_when_find_missing q rows (k : K) :
  (forall r, key r = k -> q r = true) ->
  find q rows = None -> ~ In k (map key rows).
Proof.
  intros Hq. induction rows as [|r rest IH]; simpl; [tauto|].
  destruct (q r) eqn:E; [discriminate|].
  intros Hnone [Hk | Hin]; [|now apply IH].
  apply Hq in Hk. congruence.
Qed.

Lemma map_key_replace_first p new rows x :
  find p rows = Some x -> key new = key x ->
  map key (replace_first p new rows) = map key rows.
Proof.
  intros Hx Hkey. induction rows as [|r rest IH]; simpl in *; [discriminate|].
  destruct (p r).
  - injection Hx as ->. simpl. now rewrite Hkey.
  - simpl. now rewrite IH.
Qed.

Lemma delete_first_keeps_members p rows x :
  In x (delete_first p rows) -> In x rows.
Proof.
  induction rows as [|r rest IH]; simpl; [tauto|].
  destruct (p r); simpl; intuition.
Qed.

Lemma NoDup_key_delete_first p rows :
  NoDup (map key rows) -> NoDup (map key (delete_first p rows)).
Proof.
  induction rows as [|r rest IH]; simpl; [auto|].
  intros Hnodup. inversion Hnodup as [|? ? Hfresh Hrest]; subst.
  destruct (p r); [exact Hrest|].
  simpl. constructor; [|now apply IH].
  intros Hin. apply Hfresh.
  apply in_map_iff in Hin. destruct Hin as (y & Hy & Hiny).
  apply in_map_iff. exists y. split; [exact Hy|].
  now apply delete_first_keeps_members in Hiny.
Qed.

Lemma NoDup_key_append rows new :
  NoDup (map key rows) -> ~ In (key new) (map key rows) ->
  NoDup (map key (rows ++ [new])).
Proof.
  intros Hnodup Hnew. rewrite map_app. simpl.
  apply NoDup_app.
  - exact Hnodup.
  - constructor; [simpl; tauto | constructor].
  - intros k Hk [<- | []]. now apply Hnew.
Qed.

(** Once the first row found by [p] is gone, a unique key leaves nothing
    for a lookup by that row's key to find. *)
Lemma find_nothing_after_delete_first p q rows x (k : K) :
  NoDup (map key rows) ->
  (forall r, q r = true -> key r = k) ->
  find p rows = Some x -> key x = k ->
  find q (delete_first p rows) = None.
Proof.
  intros Hnodup Hq. induction rows as [|r rest IH]; simpl; [discriminate|].
  inversion Hnodup as [|? ? Hfresh Hrest]; subst.
  destruct (p r) eqn:E.
  - intros [= <-] Hk.
    apply find_missing_when_key_absent with (k := key r); [|exact Hfresh].
    intros r' Hr'. rewrite Hk. now apply Hq.
  - intros Hx Hk. simpl.
    destruct (q r) eqn:Eq.
    + exfalso. apply Hfresh. rewrite (Hq r Eq), <- Hk.
      apply in_map. apply find_some in Hx. tauto.
    + now apply IH.
Qed.

(** With a unique key, two lookups that find rows of the same key find the
    same row. *)
Lemma find_agree_on_unique_key p q rows x y :
  NoDup (map key rows) ->
  find p rows = Some x -> find q rows = Some y -> key x = key y -> x = y.
Proof.
  intros Hnodup Hx Hy Hkey.
  apply find_some in Hx. apply find_some in Hy.
  destruct Hx as [Hx _]. destruct Hy as [Hy _].
  clear p q. induction rows as [|r rest IH]; simpl in *; [contradiction|].
  inversion Hnodup as [|? ? Hfresh Hrest]; subst.
  destruct Hx as [-> | Hx], Hy as [-> | Hy]; auto.
  - exfalso. apply Hfresh. rewrite Hkey. now apply in_map.
  - exfalso. apply Hfresh. rewrite <- Hkey. now apply in_map.
Qed.

End KeyedTables.

Lemma id_lookup_key (k : Z) (r : models.User.t) :
  (models.User.id r =? k) = true -> models.User.id r = k.
Proof. apply Z.eqb_eq. Qed.

Lemma username_lookup_key (name : string) (r : models.User.t) :
  String.eqb (models.User.username r) name = true -> models.User.username r = name.
Proof. apply String.eqb_eq. Qed.

Lemma task_id_lookup_key (k : Z) (r : models.Task.t) :
  (models.Task.id r =? k) = true -> models.Task.id r = k.
Proof. apply Z.eqb_eq. Qed.

(** ** The keys stay unique *)

Section Keys.
Context {pwd_context : CryptContext} {tokens : TokenIssuer}.

Lemma create_user_keeps_keys (db : Session) (salt : string)
    (user : schemas.UserCreate.t) :
  well_keyed db -> well_keyed (fst (main.create_user db salt user)).
Proof.
  intros (Hids & Hnames & Htasks).
  unfold main.create_user, crud.create_user.
  destruct (crud.get_user_by_username db (schemas.UserCreate.username user))
    eqn:E; simpl; [now repeat split|].
  repeat split; simpl; try assumption.
  - apply NoDup_key_append; [exact Hids|]. simpl. apply fresh_id_is_new.
  - apply NoDup_key_append; [exact Hnames|]. simpl.
    apply key_absent_when_find_missing
      with (q := fun u => String.eqb (models.User.username u)
                            (schemas.UserCreate.username user));
      [|exact E].
    intros r Hr. now apply String.eqb_eq.
Qed.

Lemma update_user_keeps_keys (db : Session) (salt : string) (user_id : Z)
    (user : schemas.UserUpdate.t) :
  map models.User.id (users (fst (crud.update_user db salt user_id user)))
  = map models.User.id (users db)
  /\ map models.User.username (users (fst (crud.update_user db salt user_id user)))
     = map models.User.username (users db)
  /\ tasks (fst (crud.update_user db salt user_id user)) = tasks db.
Proof.
  unfold crud.update_user.
  destruct (crud.get_user db user_id) as [db_user|] eqn:E; [|now repeat split].
  unfold crud.get_user in E.
  destruct (schemas.UserUpdate.password user) as [|[pw|]]; simpl;
    try (now repeat split);
    (split; [|split]; [| |reflexivity];
     apply map_key_replace_first with (x := db_user); auto).
Qed.

Lemma update_task_keeps_keys (db : Session) (task_id : Z)
    (task : schemas.TaskUpdate.t) :
  map models.Task.id (tasks (fst (crud.update_task db task_id task)))
  = map models.Task.id (tasks db)
  /\ users (fst (crud.update_task db task_id task)) = users db.
Proof.
  unfold crud.update_task.
  destruct (find _ (tasks db)) as [db_task|] eqn:E; [|now split].
  simpl. split; [|reflexivity].
  apply map_key_replace_first with (x := db_task); auto.
Qed.

(** Starting from the empty session, and after every request whoever sends
    it, no two users share an id or a username and no two tasks share an
    id. *)
Theorem every_request_keeps_the_keys_unique :
  well_keyed empty_session
  /\ forall (db : Session) (salt : string) (now : Z) (caller : models.User.t)
            (req : app.request),
       well_keyed db -> well_keyed (fst (app.handle db salt now caller req)).
Proof.
  split; [repeat split; constructor|].
  intros db salt now caller req Hdb.
  destruct (read_routes_keep_session db caller) as (Rl & Rus & Ru & Rts & Rt).
  destruct req; unfold app.handle, app.POST_users, app.POST_login, app.GET_users,
    app.GET_user, app.PUT_user, app.DELETE_user, app.POST_tasks, app.GET_tasks,
    app.GET_task, app.PUT_task, app.DELETE_task, app.route;
    cbn [fst].
  - now apply create_user_keeps_keys.
  - now rewrite Rl.
  - now rewrite Rus.
  - now rewrite Ru.
  - unfold main.update_user. destruct (_ && _); [exact Hdb|].
    destruct (update_user_keeps_keys db salt user_id user) as (Hi & Hn & Ht).
    destruct Hdb as (Hids & Hnames & Htasks).
    destruct (crud.update_user db salt user_id user) as [db' [[row|]|e]];
      simpl in *; unfold well_keyed; rewrite Hi, Hn, Ht; auto.
  - unfold main.delete_user, crud.delete_user. destruct (_ && _); [exact Hdb|].
    destruct (crud.get_user db user_id); [|exact Hdb].
    destruct Hdb as (Hids & Hnames & Htasks). simpl.
    repeat split; simpl; auto using NoDup_key_delete_first.
  - destruct Hdb as (Hids & Hnames & Htasks). simpl.
    repeat split; simpl; auto.
    apply NoDup_key_append; [exact Htasks|]. simpl. apply fresh_id_is_new.
  - exact Hdb.
  - now rewrite Rt.
  - unfold main.update_task.
    destruct (crud.get_task db task_id); [|exact Hdb].
    destruct (_ && _); [exact Hdb|].
    destruct (update_task_keeps_keys db task_id task) as (Hi & Hu).
    destruct Hdb as (Hids & Hnames & Htasks).
    destruct (crud.update_task db task_id task) as [db' row]; simpl in *.
    unfold well_keyed. rewrite Hi, Hu. auto.
  - unfold main.delete_task, crud.delete_task.
    destruct (crud.get_task db task_id) as [t|]; [|exact Hdb].
    destruct (_ && _); [exact Hdb|].
    destruct Hdb as (Hids & Hnames & Htasks). simpl.
    repeat split; simpl; auto using NoDup_key_delete_first.
Qed.

End Keys.

Lemma every_request_keeps_the_keys_unique_witness :
  well_keyed
    (fst (app.handle (pwd_context := sample.pwd_context) (tokens := sample.tokens)
            empty_session "s" 0 sample.bob (app.post_users sample.carol))).
Proof.
  destruct (every_request_keeps_the_keys_unique
              (pwd_context := sample.pwd_context) (tokens := sample.tokens))
    as (Hempty & Hstep).
  exact (Hstep empty_session "s" 0 sample.bob (app.post_users sample.carol) Hempty).
Defined.

(** ** Tasks of other users *)

Section OtherPeoplesTasks.
Context {pwd_context : CryptContext} {tokens : TokenIssuer}.

Lemma get_task_same_table (db db' : Session) (task_id : Z) :
  tasks db' = tasks db -> crud.get_task db' task_id = crud.get_task db task_id.
Proof. unfold crud.get_task. now intros ->. Qed.

Lemma task_id_eqb_apart (task_id tid : Z) :
  tid <> task_id ->
  forall r : models.Task.t,
    (models.Task.id r =? task_id) = true -> (models.Task.id r =? tid) = false.
Proof. intros Hne r H. apply Z.eqb_eq in H. apply Z.eqb_neq. congruence. Qed.

(** The user routes do not write the task table. *)
Lemma user_routes_keep_tasks (db : Session) (salt : string) (c : models.User.t) :
  (forall user, tasks (fst (main.create_user db salt user)) = tasks db)
  /\ (forall user_id user,
         tasks (fst (main.update_user db salt user_id user c)) = tasks db)
  /\ (forall user_id, tasks (fst (main.delete_user db user_id c)) = tasks db).
Proof.
  split; [|split]; intros.
  - unfold main.create_user, crud.create_user.
    destruct (crud.get_user_by_username db (schemas.UserCreate.username user));
      reflexivity.
  - unfold main.update_user. destruct (_ && _); [reflexivity|].
    destruct (update_user_keeps_keys db salt user_id user) as (_ & _ & Ht).
    destruct (crud.update_user db salt user_id user) as [db' [[row|]|e]];
      exact Ht.
  - unfold main.delete_user, crud.delete_user. destruct (_ && _); [reflexivity|].
    destruct (crud.get_user db user_id); reflexivity.
Qed.

(** A caller without the admin flag changes no task but their own:
    whatever the request, every stored task owned by somebody else is
    found unchanged under its id afterwards. *)
Theorem non_admin_changes_only_its_own_tasks :
  forall (db : Session) (salt : string) (now : Z) (caller : models.User.t)
         (req : app.request) (tid : Z) (t : models.Task.t),
    truthy (models.User.is_admin caller) = false ->
    crud.get_task db tid = Some t ->
    models.Task.owner_id t <> models.User.id caller ->
    crud.get_task (fst (app.handle db salt now caller req)) tid = Some t.
Proof.
  intros db salt now caller req tid t Hplain Ht Hother.
  destruct (user_routes_keep_tasks db salt caller) as (Uc & Uu & Ud).
  destruct (read_routes_keep_session db caller) as (Rl & Rus & Ru & Rts & Rt).
  assert (Htid : models.Task.id t = tid)
    by (apply Z.eqb_eq; unfold crud.get_task in Ht;
        exact (find_satisfies _ _ _ _ Ht)).
  destruct req; unfold app.handle, app.POST_users, app.POST_login, app.GET_users,
    app.GET_user, app.PUT_user, app.DELETE_user, app.POST_tasks, app.GET_tasks,
    app.GET_task, app.PUT_task, app.DELETE_task, app.route;
    cbn [fst].
  - rewrite <- Ht. apply get_task_same_table, Uc.
  - now rewrite Rl.
  - now rewrite Rus.
  - now rewrite Ru.
  - rewrite <- Ht. apply get_task_same_table, Uu.
  - rewrite <- Ht. apply get_task_same_table, Ud.
  - unfold main.create_task, crud.create_task, crud.get_task in *. simpl.
    now apply find_app_found.
  - exact Ht.
  - now rewrite Rt.
  - unfold main.update_task.
    destruct (crud.get_task db task_id) as [t0|] eqn:E0; [|exact Ht].
    rewrite Hplain. simpl.
    destruct (models.Task.owner_id t0 =? models.User.id caller) eqn:Eo;
      simpl; [|exact Ht].
    apply Z.eqb_eq in Eo.
    assert (Hne : tid <> task_id) by (intros ->; congruence).
    rewrite (update_task_found db task_id t0 task E0). simpl.
    rewrite <- Ht. unfold crud.get_task. simpl.
    apply find_replace_first_other; [exact (task_id_eqb_apart task_id tid Hne)|].
    simpl. apply Z.eqb_neq.
    unfold crud.get_task in E0. apply find_satisfies in E0.
    apply Z.eqb_eq in E0. congruence.
  - unfold main.delete_task.
    destruct (crud.get_task db task_id) as [t0|] eqn:E0; [|exact Ht].
    rewrite Hplain. simpl.
    destruct (models.Task.owner_id t0 =? models.User.id caller) eqn:Eo;
      simpl; [|exact Ht].
    apply Z.eqb_eq in Eo.
    assert (Hne : tid <> task_id) by (intros ->; congruence).
    unfold crud.delete_task. rewrite E0. simpl.
    rewrite <- Ht. unfold crud.get_task. simpl.
    apply find_delete_first_other. exact (task_id_eqb_apart task_id tid Hne).
Qed.

End OtherPeoplesTasks.

Lemma non_admin_changes_only_its_own_tasks_witness :
  crud.get_task
    (fst (app.handle (pwd_context := sample.pwd_context) (tokens := sample.tokens)
            sample.db "s" 0 sample.bob (app.put_task 2 (sample.only_completed true))))
    2
  = Some sample.alices_task.
Proof.
  apply (non_admin_changes_only_its_own_tasks
           (pwd_context := sample.pwd_context) (tokens := sample.tokens));
    [reflexivity | reflexivity | simpl; lia].
Defined.

(** ** Create, then read *)

Lemma get_task_of_fresh_id (db : Session) (new : models.Task.t) :
  models.Task.id new = fresh_id (map models.Task.id (tasks db)) ->
  crud.get_task (mkSession (users db) (tasks db ++ [new])) (models.Task.id new)
  = Some new.
Proof.
  intros Hid. unfold crud.get_task. simpl.
  rewrite find_app_missing.
  - simpl. now rewrite Z.eqb_refl.
  - apply find_missing_when_key_absent
      with (key := models.Task.id) (k := models.Task.id new).
    + intros r. apply Z.eqb_eq.
    + rewrite Hid. apply fresh_id_is_new.
Qed.

Lemma get_user_of_fresh_id (db : Session) (new : models.User.t) :
  models.User.id new = fresh_id (map models.User.id (users db)) ->
  crud.get_user (mkSession (users db ++ [new]) (tasks db)) (models.User.id new)
  = Some new.
Proof.
  intros Hid. unfold crud.get_user. simpl.
  rewrite find_app_missing.
  - simpl. now rewrite Z.eqb_refl.
  - apply find_missing_when_key_absent
      with (key := models.User.id) (k := models.User.id new).
    + intros r. apply Z.eqb_eq.
    + rewrite Hid. apply fresh_id_is_new.
Qed.

(** POST /tasks/ always answers 200, the task it made is the one stored
    under the new id with the caller as owner, GET /tasks/{new id} by the
    same caller answers with the very same body, and by any caller of
    another id it answers 403. *)
Theorem created_task_reads_back :
  forall (db : Session) (task : schemas.TaskCreate.t) (caller : models.User.t),
    let new_id := fresh_id (map models.Task.id (tasks db)) in
    let db' := fst (app.POST_tasks db task caller) in
    status_code (snd (app.POST_tasks db task caller)) = 200
    /\ crud.get_task db' new_id
       = Some (models.Task.mk new_id
                 (Some (schemas.TaskCreate.title task))
                 (schemas.TaskCreate.description task)
                 (Some false)
                 (models.User.id caller))
    /\ snd (app.GET_task db' new_id caller) = snd (app.POST_tasks db task caller)
    /\ (forall other : models.User.t,
           models.User.id other <> models.User.id caller ->
           status_code (snd (app.GET_task db' new_id other)) = 403).
Proof.
  intros db task caller new_id db'.
  pose (new := models.Task.mk new_id
                 (Some (schemas.TaskCreate.title task))
                 (schemas.TaskCreate.description task)
                 (Some false)
                 (models.User.id caller)).
  assert (Hget : crud.get_task db' new_id = Some new)
    by (exact (get_task_of_fresh_id db new eq_refl)).
  split; [reflexivity|]. split; [exact Hget|]. split.
  - unfold app.GET_task, app.route, main.read_task. rewrite Hget.
    simpl. now rewrite Z.eqb_refl.
  - intros other Hother.
    unfold app.GET_task, app.route, main.read_task. rewrite Hget. simpl.
    destruct (Z.eqb_spec (models.User.id caller) (models.User.id other));
      [congruence | reflexivity].
Qed.

Section RegisterThenUse.
Context {pwd_context : CryptContext} {tokens : TokenIssuer}.

(** When the username is free, POST /users/ stores a row that
    GET /users/{its id}, sent by that very user, answers with the same
    body as the registration did. *)
Theorem registered_user_reads_back :
  forall (db : Session) (salt : string) (user : schemas.UserCreate.t),
    crud.get_user_by_username db (schemas.UserCreate.username user) = None ->
    exists row : models.User.t,
      snd (main.create_user db salt user) = Return row
      /\ models.User.id row = fresh_id (map models.User.id (users db))
      /\ crud.get_user (fst (app.POST_users db salt user)) (models.User.id row)
         = Some row
      /\ status_code (snd (app.POST_users db salt user)) = 200
      /\ snd (app.GET_user (fst (app.POST_users db salt user))
                (models.User.id row) row)
         = snd (app.POST_users db salt user).
Proof.
  intros db salt user Hfree.
  unfold app.POST_users, app.route, main.create_user, crud.create_user.
  rewrite Hfree. cbn [fst snd].
  eexists. split; [reflexivity|]. split; [reflexivity|].
  match goal with
  | |- crud.get_user _ (models.User.id ?r) = _ /\ _ =>
      assert (Hget : crud.get_user
                       (mkSession (users db ++ [r]) (tasks db)) (models.User.id r)
                     = Some r)
        by (exact (get_user_of_fresh_id db r eq_refl))
  end.
  split; [exact Hget|]. split; [reflexivity|].
  unfold app.GET_user, app.route, main.read_user.
  rewrite Hget, Z.eqb_refl, andb_false_r. reflexivity.
Qed.

(** When the username is free and the hasher verifies what it has just
    hashed, a registration followed by POST /login with the same username
    and password answers 200 with a token for that username. *)
Theorem registered_user_can_log_in :
  forall (db : Session) (salt : string) (now : Z) (user : schemas.UserCreate.t),
    crud.get_user_by_username db (schemas.UserCreate.username user) = None ->
    verify (schemas.UserCreate.password user)
      (hash salt (schemas.UserCreate.password user)) = true ->
    snd (app.POST_login (fst (app.POST_users db salt user)) now
           (mkForm (schemas.UserCreate.username user)
              (schemas.UserCreate.password user)))
    = mkResponse 200
        (JObj [("access_token",
                JStr (create_access_token (schemas.UserCreate.username user)
                        ACCESS_TOKEN_EXPIRE_MINUTES now));
               ("token_type", JStr "bearer")]).
Proof.
  intros db salt now user Hfree Hverify.
  unfold app.POST_users, app.POST_login, app.route, main.login,
    main.create_user, crud.create_user.
  rewrite Hfree. cbn [fst snd form_username form_password].
  unfold crud.get_user_by_username in *. cbn [users].
  rewrite (find_app_missing _ _ _ _ Hfree). cbn [find models.User.username].
  rewrite String.eqb_refl.
  unfold crud.verify_password, crud.get_password_hash.
  cbn [models.User.hashed_password models.User.username].
  now rewrite Hverify.
Qed.

End RegisterThenUse.

Lemma registered_user_reads_back_witness :
  exists row : models.User.t,
    snd (app.GET_user
           (fst (app.POST_users (pwd_context := sample.pwd_context)
                   sample.db "s" sample.carol))
           (models.User.id row) row)
    = mkResponse 200
        (JObj [("id", JInt 3); ("username", JStr "carol");
               ("email", JStr "carol@example.com"); ("is_admin", JBool false)]).
Proof.
  destruct (registered_user_reads_back (pwd_context := sample.pwd_context)
              sample.db "s" sample.carol eq_refl)
    as (row & _ & _ & _ & _ & Hread).
  exists row. rewrite Hread. reflexivity.
Defined.

Lemma registered_user_can_log_in_witness :
  status_code
    (snd (app.POST_login (pwd_context := sample.pwd_context) (tokens := sample.tokens)
            (fst (app.POST_users (pwd_context := sample.pwd_context)
                    sample.db "s" sample.carol))
            0 (mkForm "carol" "carolpass"))) = 200.
Proof.
  exact (f_equal status_code
           (registered_user_can_log_in
              (pwd_context := sample.pwd_context) (tokens := sample.tokens)
              sample.db "s" 0 sample.carol eq_refl eq_refl)).
Defined.

(** ** Update, then update again or read *)

Lemma replace_first_twice {A : Type} (p : A -> bool) (first second : A)
    (rows : list A) :
  p first = true ->
  replace_first p second (replace_first p first rows)
  = replace_first p second rows.
Proof.
  intros Hfirst. induction rows as [|r rest IH]; simpl; [reflexivity|].
  destruct (p r) eqn:E; simpl.
  - now rewrite Hfirst.
  - now rewrite E, IH.
Qed.

Lemma setattr_field_twice {A : Type} (f : field A) (old : option A) :
  setattr_field f (setattr_field f old) = setattr_field f old.
Proof. now destruct f. Qed.

(** [crud.update_task] is idempotent: sending the same payload for the
    same id a second time returns the same task and leaves the session as
    the first update left it, whether or not the id is stored. *)
Theorem update_task_twice_is_update_task_once :
  forall (db : Session) (task_id : Z) (task_update : schemas.TaskUpdate.t),
    crud.update_task (fst (crud.update_task db task_id task_update))
      task_id task_update
    = crud.update_task db task_id task_update.
Proof.
  intros db task_id p.
  destruct (crud.get_task db task_id) as [t|] eqn:E.
  - rewrite (update_task_found db task_id t p E). cbn [fst].
    set (t' := models.Task.mk _ _ _ _ _).
    assert (Hid : (models.Task.id t' =? task_id) = true)
      by (unfold crud.get_task in E; exact (find_satisfies _ _ _ _ E)).
    assert (E' : crud.get_task
                   (mkSession (users db)
                      (replace_first (fun r => models.Task.id r =? task_id) t'
                         (tasks db))) task_id = Some t')
      by (unfold crud.get_task in *; simpl;
          now apply find_replace_first_same with (x := t)).
    rewrite (update_task_found _ task_id t' p E'). cbn [users tasks].
    rewrite (replace_first_twice _ t' _ _ Hid).
    subst t'. cbn [models.Task.id models.Task.title models.Task.description
                   models.Task.completed models.Task.owner_id].
    now rewrite !setattr_field_twice.
  - unfold crud.update_task, crud.get_task in *. rewrite E. cbn [fst].
    now rewrite E.
Qed.

(** After PUT /tasks/{id} on a stored task by its owner, GET /tasks/{id}
    by the owner answers exactly what the PUT answered. *)
Theorem updated_task_reads_back :
  forall (db : Session) (t : models.Task.t) (task : schemas.TaskUpdate.t)
         (caller : models.User.t),
    crud.get_task db (models.Task.id t) = Some t ->
    models.Task.owner_id t = models.User.id caller ->
    snd (app.GET_task (fst (app.PUT_task db (models.Task.id t) task caller))
           (models.Task.id t) caller)
    = snd (app.PUT_task db (models.Task.id t) task caller).
Proof.
  intros db t p caller Hget Howner.
  unfold app.PUT_task, app.route, main.update_task.
  rewrite Hget, Howner, Z.eqb_refl, andb_false_r.
  rewrite (update_task_found db _ t p Hget). cbn [fst snd].
  set (t' := models.Task.mk _ _ _ _ _).
  assert (E' : crud.get_task
                 (mkSession (users db)
                    (replace_first (fun r => models.Task.id r =? models.Task.id t)
                       t' (tasks db))) (models.Task.id t) = Some t').
  { unfold crud.get_task in *. simpl.
    apply find_replace_first_same with (x := t); [exact Hget|].
    simpl. apply Z.eqb_refl. }
  unfold app.GET_task, app.route, main.read_task. rewrite E'.
  subst t'. cbn [models.Task.owner_id]. rewrite Howner, Z.eqb_refl. reflexivity.
Qed.

Lemma updated_task_reads_back_witness :
  snd (app.GET_task
         (fst (app.PUT_task sample.db 1 (sample.only_completed true) sample.bob))
         1 sample.bob)
  = mkResponse 200
      (JObj [("id", JInt 1); ("title", JStr "Write report");
             ("description", JNull); ("completed", JBool true)]).
Proof.
  exact (eq_trans
           (updated_task_reads_back sample.db sample.bobs_task
              (sample.only_completed true) sample.bob eq_refl eq_refl)
           eq_refl).
Defined.

(** ** Delete, then look again *)

(** With unique task ids, DELETE /tasks/{id} on a stored task by its owner
    or an admin answers 200 and the task is gone: the lookup finds
    nothing, GET, PUT and DELETE on that id answer 404 for every caller,
    every other task is where it was and the user table is untouched. *)
Theorem deleted_task_is_gone :
  forall (db : Session) (t : models.Task.t) (caller : models.User.t),
    NoDup (map models.Task.id (tasks db)) ->
    crud.get_task db (models.Task.id t) = Some t ->
    owner_or_admin caller t = true ->
    let db' := fst (app.DELETE_task db (models.Task.id t) caller) in
    snd (app.DELETE_task db (models.Task.id t) caller)
    = mkResponse 200 (JObj [("detail", JStr "Task deleted")])
    /\ crud.get_task db' (models.Task.id t) = None
    /\ (forall (anyone : models.User.t) (task : schemas.TaskUpdate.t),
           status_code (snd (app.GET_task db' (models.Task.id t) anyone)) = 404
           /\ status_code (snd (app.PUT_task db' (models.Task.id t) task anyone)) = 404
           /\ status_code (snd (app.DELETE_task db' (models.Task.id t) anyone)) = 404)
    /\ (forall other : Z,
           other <> models.Task.id t ->
           crud.get_task db' other = crud.get_task db other)
    /\ users db' = users db.
Proof.
  intros db t caller Hnodup Hget Hallowed db'.
  assert (Hdb' : db' = mkSession (users db)
                         (delete_first (fun r => models.Task.id r =? models.Task.id t)
                            (tasks db))).
  { subst db'. unfold app.DELETE_task, app.route, main.delete_task.
    rewrite Hget, task_guard, Hallowed. unfold crud.delete_task.
    now rewrite Hget. }
  assert (Hgone : crud.get_task db' (models.Task.id t) = None).
  { rewrite Hdb'. unfold crud.get_task in *. simpl.
    apply find_nothing_after_delete_first
      with (key := models.Task.id) (x := t) (k := models.Task.id t); auto.
    intros r. apply Z.eqb_eq. }
  split.
  { unfold app.DELETE_task, app.route, main.delete_task.
    rewrite Hget, task_guard, Hallowed. unfold crud.delete_task.
    now rewrite Hget. }
  split; [exact Hgone|]. split.
  { intros anyone task.
    unfold app.GET_task, app.PUT_task, app.DELETE_task, app.route,
      main.read_task, main.update_task, main.delete_task.
    rewrite Hgone. repeat split. }
  split.
  { intros other Hne. rewrite Hdb'. unfold crud.get_task. simpl.
    apply find_delete_first_other.
    exact (task_id_eqb_apart (models.Task.id t) other Hne). }
  now rewrite Hdb'.
Qed.

Lemma deleted_task_is_gone_witness :
  status_code
    (snd (app.GET_task (fst (app.DELETE_task sample.db 1 sample.bob)) 1 sample.bob))
  = 404.
Proof.
  destruct (deleted_task_is_gone sample.db sample.bobs_task sample.bob)
    as (_ & _ & H404 & _).
  - simpl. repeat constructor; simpl; intuition discriminate.
  - reflexivity.
  - reflexivity.
  - destruct (H404 sample.bob (sample.only_completed true)) as (Hget & _).
    exact Hget.
Defined.

Section DeletedUser.
Context {pwd_context : CryptContext} {tokens : TokenIssuer}.

(** With unique ids and usernames, DELETE /users/{id} on a stored user by
    that user or an admin answers 200 and the user is gone: neither the id
    nor the username is found any more, POST /login under that username
    answers 401 whatever the password, GET /users/{id} by an admin answers
    404, and every other user is where it was. *)
Theorem deleted_user_is_gone :
  forall (db : Session) (u caller : models.User.t),
    well_keyed db ->
    crud.get_user db (models.User.id u) = Some u ->
    self_or_admin caller (models.User.id u) = true ->
    let db' := fst (app.DELETE_user db (models.User.id u) caller) in
    snd (app.DELETE_user db (models.User.id u) caller)
    = mkResponse 200 (JObj [("detail", JStr "User deleted")])
    /\ crud.get_user db' (models.User.id u) = None
    /\ crud.get_user_by_username db' (models.User.username u) = None
    /\ (forall (now : Z) (password : string),
           status_code
             (snd (app.POST_login db' now
                     (mkForm (models.User.username u) password))) = 401)
    /\ (forall admin : models.User.t,
           models.User.is_admin admin = Some true ->
           status_code (snd (app.GET_user db' (models.User.id u) admin)) = 404)
    /\ (forall other : Z,
           other <> models.User.id u ->
           crud.get_user db' other = crud.get_user db other).
Proof.
  intros db u caller (Hids & Hnames & _) Hget Hallowed db'.
  assert (Hdb' : db' = mkSession
                         (delete_first (fun r => models.User.id r =? models.User.id u)
                            (users db))
                         (tasks db)).
  { subst db'. unfold app.DELETE_user, app.route, main.delete_user.
    rewrite user_guard, Hallowed. unfold crud.delete_user. now rewrite Hget. }
  assert (Hgone : crud.get_user db' (models.User.id u) = None).
  { rewrite Hdb'. unfold crud.get_user in *. simpl.
    apply find_nothing_after_delete_first
      with (key := models.User.id) (x := u) (k := models.User.id u); auto.
    intros r. apply Z.eqb_eq. }
  assert (Hname : crud.get_user_by_username db' (models.User.username u) = None).
  { rewrite Hdb'. unfold crud.get_user_by_username, crud.get_user in *. simpl.
    apply find_nothing_after_delete_first
      with (key := models.User.username) (x := u) (k := models.User.username u);
      auto.
    intros r. apply String.eqb_eq. }
  split.
  { unfold app.DELETE_user, app.route, main.delete_user.
    rewrite user_guard, Hallowed. unfold crud.delete_user. now rewrite Hget. }
  split; [exact Hgone|]. split; [exact Hname|]. split.
  { intros now password. unfold app.POST_login, app.route, main.login.
    cbn [form_username]. now rewrite Hname. }
  split.
  { intros admin Hadmin. unfold app.GET_user, app.route, main.read_user.
    now rewrite Hadmin, Hgone. }
  intros other Hne. rewrite Hdb'. unfold crud.get_user. simpl.
  apply find_delete_first_other.
  exact (id_eqb_apart (models.User.id u) other Hne).
Qed.

End DeletedUser.

Lemma sample_db_well_keyed : well_keyed sample.db.
Proof.
  repeat split; simpl; repeat constructor; simpl; intuition discriminate.
Qed.

Lemma deleted_user_is_gone_witness :
  status_code
    (snd (app.POST_login (pwd_context := sample.pwd_context) (tokens := sample.tokens)
            (fst (app.DELETE_user sample.db 2 sample.bob)) 0
            (mkForm "bob" "bobpass"))) = 401.
Proof.
  destruct (deleted_user_is_gone
              (pwd_context := sample.pwd_context) (tokens := sample.tokens)
              sample.db sample.bob sample.bob
              sample_db_well_keyed eq_refl eq_refl)
    as (_ & _ & _ & Hlogin & _).
  exact (Hlogin 0 "bobpass").
Defined.

(** ** Which status, when *)

Ltac settle_status :=
  repeat match goal with
         | |- _ /\ _ => split
         | |- _ <-> _ => split
         | |- _ -> _ => intro
         | H : _ /\ _ |- _ => destruct H
         | H : exists _, _ |- _ => destruct H
         | H : Some _ = Some _ |- _ => injection H as H; subst
         end;
  simpl in *; try congruence; try lia; try discriminate; eauto.

Section UserStatuses.
Context {pwd_context : CryptContext}.

(** The user routes, status by status.  GET /users/ answers 403 exactly
    when the caller lacks the admin flag.  GET, PUT and DELETE /users/{id}
    answer 403 exactly when the caller is neither an admin nor the user of
    that id, and 404 exactly when the caller passes that test and the id
    is not stored, for an id of the id column's range ([int64]).  None of
    these refusals changes the session. *)
Theorem user_routes_status_table :
  forall (db : Session) (salt : string) (skip lim user_id : Z)
         (user : schemas.UserUpdate.t) (caller : models.User.t),
    int64 user_id = true ->
    (status_code (snd (app.GET_users db skip lim caller)) = 403
     <-> truthy (models.User.is_admin caller) = false)
    /\ (status_code (snd (app.GET_user db user_id caller)) = 403
        <-> self_or_admin caller user_id = false)
    /\ (status_code (snd (app.GET_user db user_id caller)) = 404
        <-> self_or_admin caller user_id = true /\ crud.get_user db user_id = None)
    /\ (status_code (snd (app.PUT_user db salt user_id user caller)) = 403
        <-> self_or_admin caller user_id = false)
    /\ (status_code (snd (app.PUT_user db salt user_id user caller)) = 404
        <-> self_or_admin caller user_id = true /\ crud.get_user db user_id = None)
    /\ (status_code (snd (app.DELETE_user db user_id caller)) = 403
        <-> self_or_admin caller user_id = false)
    /\ (status_code (snd (app.DELETE_user db user_id caller)) = 404
        <-> self_or_admin caller user_id = true /\ crud.get_user db user_id = None)
    /\ (self_or_admin caller user_id = false \/ crud.get_user db user_id = None ->
        fst (app.GET_user db user_id caller) = db
        /\ fst (app.PUT_user db salt user_id user caller) = db
        /\ fst (app.DELETE_user db user_id caller) = db).
Proof.
  intros db salt skip lim user_id user caller _.
  unfold app.GET_users, app.GET_user, app.PUT_user, app.DELETE_user, app.route,
    main.read_users, main.read_user, main.update_user, main.delete_user,
    crud.update_user, crud.delete_user.
  rewrite !user_guard.
  destruct (truthy (models.User.is_admin caller)) eqn:Eadmin;
    destruct (self_or_admin caller user_id) eqn:Epred;
    destruct (crud.get_user db user_id) as [row|] eqn:Erow;
    cbn [negb fst snd];
    try (destruct (schemas.UserUpdate.password user) as [|[pw|]]);
    cbn [fst snd respond error_response status_code];
    repeat match goal with
           | |- context [match ?x with Some _ => _ | None => _ end] =>
               destruct x
           end;
    settle_status;
    try match goal with H : _ \/ _ |- _ => destruct H; congruence end.
Qed.

End UserStatuses.

(** The task routes, status by status, for an id of the id column's range
    ([int64]).  GET, PUT and DELETE /tasks/{id} answer 404 exactly when
    the id is not stored.  GET answers 403 exactly
    when the stored task has another owner than the caller; PUT and DELETE
    answer 403 exactly when the caller is neither an admin nor the owner.
    None of these refusals changes the session. *)
Theorem task_routes_status_table :
  forall (db : Session) (task_id : Z) (task : schemas.TaskUpdate.t)
         (caller : models.User.t),
    int64 task_id = true ->
    (status_code (snd (app.GET_task db task_id caller)) = 404
     <-> crud.get_task db task_id = None)
    /\ (status_code (snd (app.PUT_task db task_id task caller)) = 404
        <-> crud.get_task db task_id = None)
    /\ (status_code (snd (app.DELETE_task db task_id caller)) = 404
        <-> crud.get_task db task_id = None)
    /\ (status_code (snd (app.GET_task db task_id caller)) = 403
        <-> exists t, crud.get_task db task_id = Some t
                      /\ models.Task.owner_id t <> models.User.id caller)
    /\ (status_code (snd (app.PUT_task db task_id task caller)) = 403
        <-> exists t, crud.get_task db task_id = Some t
                      /\ owner_or_admin caller t = false)
    /\ (status_code (snd (app.DELETE_task db task_id caller)) = 403
        <-> exists t, crud.get_task db task_id = Some t
                      /\ owner_or_admin caller t = false)
    /\ (status_code (snd (app.PUT_task db task_id task caller)) = 403
        \/ status_code (snd (app.PUT_task db task_id task caller)) = 404 ->
        fst (app.PUT_task db task_id task caller) = db)
    /\ (status_code (snd (app.DELETE_task db task_id caller)) = 403
        \/ status_code (snd (app.DELETE_task db task_id caller)) = 404 ->
        fst (app.DELETE_task db task_id caller) = db).
Proof.
  intros db task_id task caller _.
  unfold app.GET_task, app.PUT_task, app.DELETE_task, app.route,
    main.read_task, main.update_task, main.delete_task.
  destruct (crud.get_task db task_id) as [t|] eqn:Et.
  - rewrite (task_guard caller t).
    rewrite (update_task_found db task_id t task Et).
    unfold crud.delete_task. rewrite Et.
    destruct (owner_or_admin caller t) eqn:Eguard;
      destruct (Z.eqb_spec (models.Task.owner_id t) (models.User.id caller))
        as [Eown|Eown];
      cbn [negb fst snd respond error_response status_code
             response_model.Optional_Task response_model.Any];
      repeat match goal with
             | |- context [match ?x with Some _ => _ | None => _ end] =>
                 destruct x
             end;
      settle_status;
      try match goal with H : _ \/ _ |- _ => destruct H; congruence end.
  - cbn [fst snd respond error_response status_code].
    settle_status.
Qed.

Lemma user_routes_status_table_witness :
  status_code (snd (app.GET_users sample.db 0 100 sample.bob)) = 403
  /\ status_code (snd (app.GET_user sample.db 7 sample.alice)) = 404.
Proof.
  destruct (user_routes_status_table (pwd_context := sample.pwd_context)
              sample.db "s" 0 100 7 sample.new_email sample.bob eq_refl)
    as (Hlist & _).
  destruct (user_routes_status_table (pwd_context := sample.pwd_context)
              sample.db "s" 0 100 7 sample.new_email sample.alice eq_refl)
    as (_ & _ & Hmissing & _).
  split.
  - apply Hlist. reflexivity.
  - apply Hmissing. split; reflexivity.
Defined.

Lemma task_routes_status_table_witness :
  status_code (snd (app.GET_task sample.db 9 sample.bob)) = 404
  /\ status_code (snd (app.DELETE_task sample.db 2 sample.bob)) = 403.
Proof.
  destruct (task_routes_status_table sample.db 9 (sample.only_completed true)
              sample.bob eq_refl) as (Hmissing & _).
  destruct (task_routes_status_table sample.db 2 (sample.only_completed true)
              sample.bob eq_refl) as (_ & _ & _ & _ & _ & Hforbidden & _).
  split.
  - apply Hmissing. reflexivity.
  - apply Hforbidden. exists sample.alices_task. split; reflexivity.
Defined.

(** ** Partial update of a user *)

Section KeyedReplace.
Variables (A K : Type) (key : A -> K).

(** With a unique key, a lookup by the key of the row that [p] finds
    meets, after the replacement, the row put in its place. *)
Lemma find_replacement_by_key (p q : A -> bool) (new x : A) (rows : list A) :
  NoDup (map key rows) ->
  (forall r, q r = true -> key r = key x) ->
  q new = true ->
  find p rows = Some x ->
  find q (replace_first p new rows) = Some new.
Proof.
  intros Hnodup Hq Hnew. induction rows as [|r rest IH]; simpl; [discriminate|].
  inversion Hnodup as [|? ? Hfresh Hrest]; subst.
  destruct (p r) eqn:E.
  - intros _. simpl. now rewrite Hnew.
  - intros Hx. simpl.
    destruct (q r) eqn:Eq.
    + exfalso. apply Hfresh. rewrite (Hq r Eq).
      apply in_map. apply find_some in Hx. tauto.
    + now apply IH.
Qed.

End KeyedReplace.

Section UserUpdates.
Context {pwd_context : CryptContext} {tokens : TokenIssuer}.

(** The row that [crud.update_user] writes over [u] when the payload does
    not carry a null password. *)
Lemma update_user_found (db : Session) (salt : string) (user_id : Z)
    (u : models.User.t) (p : schemas.UserUpdate.t) :
  crud.get_user db user_id = Some u ->
  schemas.UserUpdate.password p <> Given None ->
  crud.update_user db salt user_id p
  = (mkSession
       (replace_first (fun r => models.User.id r =? user_id)
          (models.User.mk (models.User.id u) (models.User.username u)
             (setattr_field (schemas.UserUpdate.email p) (models.User.email u))
             (match schemas.UserUpdate.password p with
              | Given (Some password) => crud.get_password_hash salt password
              | _ => models.User.hashed_password u
              end)
             (setattr_field (schemas.UserUpdate.is_admin p)
                (models.User.is_admin u)))
          (users db))
       (tasks db),
     Return
       (Some (models.User.mk (models.User.id u) (models.User.username u)
                (setattr_field (schemas.UserUpdate.email p) (models.User.email u))
                (match schemas.UserUpdate.password p with
                 | Given (Some password) => crud.get_password_hash salt password
                 | _ => models.User.hashed_password u
                 end)
                (setattr_field (schemas.UserUpdate.is_admin p)
                   (models.User.is_admin u))))).
Proof.
  intros Hget Hpw. unfold crud.update_user. rewrite Hget.
  destruct (schemas.UserUpdate.password p) as [|[pw|]]; congruence.
Qed.

(** [crud.update_user] on a stored user returns a user, which is the one
    stored afterwards.  The id and the username never change; the email
    and the admin flag change only when the payload carries them; the
    stored hash changes only when the payload carries a password, and is
    then the hash of that password, not the password.  No task and no
    user of another id is touched. *)
Theorem update_user_leaves_unset_fields_alone :
  forall (db : Session) (salt : string) (u : models.User.t)
         (user_update : schemas.UserUpdate.t),
    crud.get_user db (models.User.id u) = Some u ->
    schemas.UserUpdate.password user_update <> Given None ->
    exists (db' : Session) (u' : models.User.t),
      crud.update_user db salt (models.User.id u) user_update
      = (db', Return (Some u'))
      /\ crud.get_user db' (models.User.id u) = Some u'
      /\ models.User.id u' = models.User.id u
      /\ models.User.username u' = models.User.username u
      /\ (schemas.UserUpdate.email user_update = Unset ->
          models.User.email u' = models.User.email u)
      /\ (schemas.UserUpdate.is_admin user_update = Unset ->
          models.User.is_admin u' = models.User.is_admin u)
      /\ (schemas.UserUpdate.password user_update = Unset ->
          models.User.hashed_password u' = models.User.hashed_password u)
      /\ (forall password : string,
             schemas.UserUpdate.password user_update = Given (Some password) ->
             models.User.hashed_password u' = hash salt password)
      /\ tasks db' = tasks db
      /\ (forall other : Z,
             other <> models.User.id u ->
             crud.get_user db' other = crud.get_user db other).
Proof.
  intros db salt u p Hget Hpw.
  rewrite (update_user_found db salt _ u p Hget Hpw).
  eexists. eexists. split; [reflexivity|].
  split.
  { unfold crud.get_user in *. simpl.
    apply find_replace_first_same with (x := u); [exact Hget|].
    simpl. apply Z.eqb_refl. }
  split; [reflexivity|]. split; [reflexivity|].
  split; [intros H; simpl; now rewrite H|].
  split; [intros H; simpl; now rewrite H|].
  split; [intros H; simpl; now rewrite H|].
  split; [intros pw H; simpl; now rewrite H|].
  split; [reflexivity|].
  intros other Hne. unfold crud.get_user. simpl.
  apply find_replace_first_other.
  - exact (id_eqb_apart (models.User.id u) other Hne).
  - simpl. apply Z.eqb_neq. congruence.
Qed.

(** A missing id: nothing is returned and nothing is written, whatever
    the payload. *)
Lemma update_user_missing (db : Session) (salt : string) (user_id : Z)
    (p : schemas.UserUpdate.t) :
  crud.get_user db user_id = None ->
  crud.update_user db salt user_id p = (db, Return None).
Proof. intros H. unfold crud.update_user. now rewrite H. Qed.

(** With unique usernames, once PUT /users/{id} by the user or an admin
    has set a new password and the hasher verifies what it has just
    hashed, POST /login with the user's name and the new password answers
    200 with a token for that name. *)
Theorem new_password_logs_in :
  forall (db : Session) (salt : string) (now : Z) (u caller : models.User.t)
         (user : schemas.UserUpdate.t) (password : string),
    NoDup (map models.User.username (users db)) ->
    crud.get_user db (models.User.id u) = Some u ->
    self_or_admin caller (models.User.id u) = true ->
    schemas.UserUpdate.password user = Given (Some password) ->
    verify password (hash salt password) = true ->
    snd (app.POST_login
           (fst (app.PUT_user db salt (models.User.id u) user caller)) now
           (mkForm (models.User.username u) password))
    = mkResponse 200
        (JObj [("access_token",
                JStr (create_access_token (models.User.username u)
                        ACCESS_TOKEN_EXPIRE_MINUTES now));
               ("token_type", JStr "bearer")]).
Proof.
  intros db salt now u caller p password Hnames Hget Hallowed Hpw Hverify.
  assert (Hnotnull : schemas.UserUpdate.password p <> Given None) by congruence.
  unfold app.PUT_user, app.route, main.update_user.
  rewrite user_guard, Hallowed.
  rewrite (update_user_found db salt _ u p Hget Hnotnull). cbn [negb fst].
  set (u' := models.User.mk _ _ _ _ _).
  assert (Hname : crud.get_user_by_username
                    (mkSession
                       (replace_first
                          (fun r => models.User.id r =? models.User.id u) u'
                          (users db)) (tasks db))
                    (models.User.username u) = Some u').
  { unfold crud.get_user_by_username, crud.get_user in *. cbn [users].
    apply find_replacement_by_key
      with (key := models.User.username) (x := u); auto.
    - intros r. apply String.eqb_eq.
    - subst u'. cbn [models.User.username]. apply String.eqb_refl. }
  unfold app.POST_login, app.route, main.login. cbn [form_username form_password].
  rewrite Hname. subst u'. cbn [models.User.hashed_password models.User.username].
  rewrite Hpw. unfold crud.verify_password, crud.get_password_hash.
  now rewrite Hverify.
Qed.

End UserUpdates.

Lemma update_user_leaves_unset_fields_alone_witness :
  exists (db' : Session) (u' : models.User.t),
    crud.update_user (pwd_context := sample.pwd_context)
      sample.db "s" 2 sample.new_email = (db', Return (Some u'))
    /\ models.User.username u' = "bob"
    /\ models.User.is_admin u' = Some false
    /\ models.User.hashed_password u' = "s2$bobpass".
Proof.
  destruct (update_user_leaves_unset_fields_alone
              (pwd_context := sample.pwd_context)
              sample.db "s" sample.bob sample.new_email eq_refl)
    as (db' & u' & Hrun & _ & _ & Hname & _ & Hflag & Hhash & _).
  - simpl. discriminate.
  - exists db', u'. split; [exact Hrun|]. split; [exact Hname|].
    split; [exact (Hflag eq_refl) | exact (Hhash eq_refl)].
Defined.

Lemma new_password_logs_in_witness :
  status_code
    (snd (app.POST_login (pwd_context := sample.pwd_context) (tokens := sample.tokens)
            (fst (app.PUT_user (pwd_context := sample.pwd_context)
                    sample.db "s" 2
                    (schemas.UserUpdate.mk Unset (Given (Some "newpass")) Unset)
                    sample.bob))
            0 (mkForm "bob" "newpass"))) = 200.
Proof.
  destruct sample_db_well_keyed as (_ & Hnames & _).
  exact (f_equal status_code
           (new_password_logs_in
              (pwd_context := sample.pwd_context) (tokens := sample.tokens)
              sample.db "s" 0 sample.bob sample.bob
              (schemas.UserUpdate.mk Unset (Given (Some "newpass")) Unset)
              "newpass" Hnames eq_refl eq_refl eq_refl eq_refl)).
Defined.

(** ** What no request changes *)

Section Immutable.
Context {pwd_context : CryptContext} {tokens : TokenIssuer}.

Lemma update_user_keeps_username (db : Session) (salt : string) (user_id : Z)
    (p : schemas.UserUpdate.t) (uid : Z) (u u' : models.User.t) :
  crud.get_user db uid = Some u ->
  crud.get_user (fst (crud.update_user db salt user_id p)) uid = Some u' ->
  models.User.username u' = models.User.username u.
Proof.
  intros Hu Hu'.
  destruct (Z.eq_dec uid user_id) as [->|Hne].
  - destruct (schemas.UserUpdate.password p) as [|[pw|]] eqn:Epw.
    + rewrite (update_user_found db salt user_id u p Hu) in Hu' by congruence.
      cbn [fst] in Hu'. unfold crud.get_user in Hu, Hu'. cbn [users] in Hu'.
      erewrite find_replace_first_same in Hu'; [| exact Hu |];
        [injection Hu' as <-; reflexivity|].
      simpl. exact (find_satisfies _ _ _ _ Hu).
    + rewrite (update_user_found db salt user_id u p Hu) in Hu' by congruence.
      cbn [fst] in Hu'. unfold crud.get_user in Hu, Hu'. cbn [users] in Hu'.
      erewrite find_replace_first_same in Hu'; [| exact Hu |];
        [injection Hu' as <-; reflexivity|].
      simpl. exact (find_satisfies _ _ _ _ Hu).
    + unfold crud.update_user in Hu'. rewrite Hu, Epw in Hu'. cbn [fst] in Hu'.
      congruence.
  - rewrite (update_user_keeps_other_rows db salt user_id p uid Hne) in Hu'.
    congruence.
Qed.

Lemma delete_user_keeps_username (db : Session) (user_id uid : Z)
    (u u' : models.User.t) :
  NoDup (map models.User.id (users db)) ->
  crud.get_user db uid = Some u ->
  crud.get_user (fst (crud.delete_user db user_id)) uid = Some u' ->
  u' = u.
Proof.
  intros Hids Hu Hu'.
  destruct (Z.eq_dec uid user_id) as [->|Hne].
  - exfalso. unfold crud.delete_user in Hu'. rewrite Hu in Hu'. cbn [fst] in Hu'.
    unfold crud.get_user in Hu, Hu'. cbn [users] in Hu'.
    rewrite (find_nothing_after_delete_first _ _ models.User.id _ _ _ u user_id)
      in Hu'; try discriminate; auto.
    + intros r. apply Z.eqb_eq.
    + apply Z.eqb_eq. exact (find_satisfies _ _ _ _ Hu).
  - rewrite (delete_user_keeps_other_rows db user_id uid Hne) in Hu'. congruence.
Qed.

Lemma update_task_keeps_owner (db : Session) (task_id : Z)
    (p : schemas.TaskUpdate.t) (tid : Z) (t t' : models.Task.t) :
  crud.get_task db tid = Some t ->
  crud.get_task (fst (crud.update_task db task_id p)) tid = Some t' ->
  models.Task.owner_id t' = models.Task.owner_id t
  /\ models.Task.id t' = models.Task.id t.
Proof.
  intros Ht Ht'.
  destruct (Z.eq_dec tid task_id) as [->|Hne].
  - rewrite (update_task_found db task_id t p Ht) in Ht'. cbn [fst] in Ht'.
    unfold crud.get_task in Ht, Ht'. cbn [tasks] in Ht'.
    erewrite find_replace_first_same in Ht'; [| exact Ht |];
      [injection Ht' as <-; split; reflexivity|].
    simpl. exact (find_satisfies _ _ _ _ Ht).
  - destruct (crud.get_task db task_id) as [t0|] eqn:E0.
    + rewrite (update_task_found db task_id t0 p E0) in Ht'. cbn [fst] in Ht'.
      unfold crud.get_task in Ht, Ht', E0. cbn [tasks] in Ht'.
      rewrite find_replace_first_other in Ht'.
      * rewrite Ht in Ht'. injection Ht' as <-. now split.
      * exact (task_id_eqb_apart task_id tid Hne).
      * simpl. apply Z.eqb_neq. apply find_satisfies in E0.
        apply Z.eqb_eq in E0. congruence.
    + unfold crud.update_task, crud.get_task in *. rewrite E0 in Ht'.
      cbn [fst] in Ht'. rewrite Ht in Ht'. injection Ht' as <-. now split.
Qed.

Lemma delete_task_keeps_rows (db : Session) (task_id tid : Z)
    (t t' : models.Task.t) :
  NoDup (map models.Task.id (tasks db)) ->
  crud.get_task db tid = Some t ->
  crud.get_task (fst (crud.delete_task db task_id)) tid = Some t' ->
  t' = t.
Proof.
  intros Hids Ht Ht'.
  unfold crud.delete_task in Ht'.
  destruct (crud.get_task db task_id) as [t0|] eqn:E0; cbn [fst] in Ht';
    [|congruence].
  unfold crud.get_task in Ht, Ht', E0. cbn [tasks] in Ht'.
  destruct (Z.eq_dec tid task_id) as [->|Hne].
  - exfalso.
    rewrite (find_nothing_after_delete_first _ _ models.Task.id _ _ _ t0 task_id)
      in Ht'; try discriminate; auto.
    + intros r. apply Z.eqb_eq.
    + apply Z.eqb_eq. exact (find_satisfies _ _ _ _ E0).
  - rewrite find_delete_first_other in Ht'; [congruence|].
    exact (task_id_eqb_apart task_id tid Hne).
Qed.

(** With unique ids, no request of any caller, admin or not, renames a
    user or hands a task to another owner: a user found under an id before
    and after the request has the same username, and a task found under
    an id before and after has the same owner. *)
Theorem usernames_and_owners_never_change :
  forall (db : Session) (salt : string) (now : Z) (caller : models.User.t)
         (req : app.request),
    well_keyed db ->
    (forall (uid : Z) (u u' : models.User.t),
        crud.get_user db uid = Some u ->
        crud.get_user (fst (app.handle db salt now caller req)) uid = Some u' ->
        models.User.username u' = models.User.username u)
    /\ (forall (tid : Z) (t t' : models.Task.t),
           crud.get_task db tid = Some t ->
           crud.get_task (fst (app.handle db salt now caller req)) tid = Some t' ->
           models.Task.owner_id t' = models.Task.owner_id t).
Proof.
  intros db salt now caller req (Hids & Hnames & Htasks).
  destruct (task_routes_keep_users db caller) as (Tc & Tu & Td).
  destruct (user_routes_keep_tasks db salt caller) as (Uc & Uu & Ud).
  destruct (read_routes_keep_session db caller) as (Rl & Rus & Ru & Rts & Rt).
  assert (Hsame_users : forall db' : Session,
             users db' = users db ->
             forall uid u u', crud.get_user db uid = Some u ->
               crud.get_user db' uid = Some u' ->
               models.User.username u' = models.User.username u).
  { intros db' E uid u u' Hu Hu'.
    rewrite (get_user_same_table db db' uid E) in Hu'. congruence. }
  assert (Hsame_tasks : forall db' : Session,
             tasks db' = tasks db ->
             forall tid t t', crud.get_task db tid = Some t ->
               crud.get_task db' tid = Some t' ->
               models.Task.owner_id t' = models.Task.owner_id t).
  { intros db' E tid t t' Ht Ht'.
    rewrite (get_task_same_table db db' tid E) in Ht'. congruence. }
  destruct req; unfold app.handle, app.POST_users, app.POST_login, app.GET_users,
    app.GET_user, app.PUT_user, app.DELETE_user, app.POST_tasks, app.GET_tasks,
    app.GET_task, app.PUT_task, app.DELETE_task, app.route;
    cbn [fst]; split.
  - intros uid u u' Hu Hu'.
    rewrite (create_user_keeps_rows db salt user uid u Hu) in Hu'. congruence.
  - apply Hsame_tasks, Uc.
  - apply Hsame_users. now rewrite Rl.
  - apply Hsame_tasks. now rewrite Rl.
  - apply Hsame_users. now rewrite Rus.
  - apply Hsame_tasks. now rewrite Rus.
  - apply Hsame_users. now rewrite Ru.
  - apply Hsame_tasks. now rewrite Ru.
  - unfold main.update_user. destruct (_ && _); [now apply Hsame_users|].
    intros uid u u' Hu Hu'.
    apply (update_user_keeps_username db salt user_id user uid u u' Hu).
    destruct (crud.update_user db salt user_id user) as [db' [[row|]|e]];
      exact Hu'.
  - apply Hsame_tasks, Uu.
  - unfold main.delete_user. destruct (_ && _); [now apply Hsame_users|].
    intros uid u u' Hu Hu'.
    rewrite (delete_user_keeps_username db user_id uid u u' Hids Hu);
      [reflexivity|].
    destruct (crud.delete_user db user_id) as [db' [row|]]; exact Hu'.
  - apply Hsame_tasks, Ud.
  - apply Hsame_users, Tc.
  - intros tid t t' Ht Ht'.
    unfold main.create_task, crud.create_task, crud.get_task in *.
    cbn [fst tasks] in Ht'.
    rewrite (find_app_found _ _ _ _ _ Ht) in Ht'. congruence.
  - now apply Hsame_users.
  - now apply Hsame_tasks.
  - apply Hsame_users. now rewrite Rt.
  - apply Hsame_tasks. now rewrite Rt.
  - apply Hsame_users, Tu.
  - unfold main.update_task.
    destruct (crud.get_task db task_id) as [t0|]; [|now apply Hsame_tasks].
    destruct (_ && _); [now apply Hsame_tasks|].
    intros tid t t' Ht Ht'.
    refine (proj1 (update_task_keeps_owner db task_id task tid t t' Ht _)).
    destruct (crud.update_task db task_id task) as [db' row]; exact Ht'.
  - apply Hsame_users, Td.
  - unfold main.delete_task.
    destruct (crud.get_task db task_id) as [t0|]; [|now apply Hsame_tasks].
    destruct (_ && _); [now apply Hsame_tasks|].
    intros tid t t' Ht Ht'.
    rewrite (delete_task_keeps_rows db task_id tid t t' Htasks Ht);
      [reflexivity|].
    destruct (crud.delete_task db task_id) as [db' row]; exact Ht'.
Qed.

End Immutable.

Lemma usernames_and_owners_never_change_witness :
  exists t' : models.Task.t,
    crud.get_task
      (fst (app.handle (pwd_context := sample.pwd_context) (tokens := sample.tokens)
              sample.db "s" 0 sample.alice
              (app.put_task 1 (sample.only_completed true)))) 1 = Some t'
    /\ models.Task.owner_id t' = 2.
Proof.
  destruct (usernames_and_owners_never_change
              (pwd_context := sample.pwd_context) (tokens := sample.tokens)
              sample.db "s" 0 sample.alice
              (app.put_task 1 (sample.only_completed true))
              sample_db_well_keyed) as (_ & Howner).
  eexists. split; [reflexivity|].
  exact (Howner 1 sample.bobs_task _ eq_refl eq_refl).
Defined.

(** ** The configured database *)

(** The URL the engine is created with is never empty: an unset
    DATABASE_URL and an empty one both fall back to the local sqlite file,
    and any other value is used as it is.  [check_same_thread = False] is
    passed exactly when that URL starts with "sqlite", which the fallback
    does; otherwise no connect argument is passed. *)
Theorem database_url_falls_back_to_sqlite :
  forall env : option string,
    database.SQLALCHEMY_DATABASE_URL env <> ""
    /\ (env = None \/ env = Some "" ->
        database.SQLALCHEMY_DATABASE_URL env = "sqlite:///./test.db"
        /\ database.connect_args env = [("check_same_thread", false)])
    /\ (forall url : string,
           env = Some url -> url <> "" ->
           database.SQLALCHEMY_DATABASE_URL env = url)
    /\ (database.connect_args env = [("check_same_thread", false)]
        <-> String.prefix "sqlite" (database.SQLALCHEMY_DATABASE_URL env) = true)
    /\ (database.connect_args env = []
        <-> String.prefix "sqlite" (database.SQLALCHEMY_DATABASE_URL env) = false).
Proof.
  intros env. split; [|split; [|split; [|split]]].
  - destruct env as [[|c url]|]; simpl; discriminate.
  - intros [-> | ->]; split; reflexivity.
  - intros url -> Hurl. destruct url; [congruence | reflexivity].
  - unfold database.connect_args.
    destruct (String.prefix "sqlite" (database.SQLALCHEMY_DATABASE_URL env));
      split; intros H; congruence || reflexivity.
  - unfold database.connect_args.
    destruct (String.prefix "sqlite" (database.SQLALCHEMY_DATABASE_URL env));
      split; intros H; congruence || reflexivity.
Qed.

Lemma database_url_falls_back_to_sqlite_witness :
  database.SQLALCHEMY_DATABASE_URL (Some "") = "sqlite:///./test.db"
  /\ database.SQLALCHEMY_DATABASE_URL (Some "postgresql://db/todo")
     = "postgresql://db/todo"
  /\ database.connect_args (Some "postgresql://db/todo") = [].
Proof.
  destruct (database_url_falls_back_to_sqlite (Some "")) as (_ & Hempty & _).
  destruct (database_url_falls_back_to_sqlite (Some "postgresql://db/todo"))
    as (_ & _ & Hurl & _ & Hnone).
  split; [|split].
  - apply Hempty. now right.
  - apply Hurl; [reflexivity | discriminate].
  - apply Hnone. reflexivity.
Defined.

(** ** Requests that write nothing *)

Section NoWrite.
Context {pwd_context : CryptContext} {tokens : TokenIssuer}.

(** A request that is refused writes nothing: whenever the answer is a
    4xx (400 duplicate username, 401 bad credentials, 403 forbidden, 404
    not found) the session is the one the request found.  The same holds
    for every GET and for the login, whatever they answer. *)
Theorem refusals_and_reads_write_nothing :
  forall (db : Session) (salt : string) (now : Z) (caller : models.User.t)
         (req : app.request),
    (400 <= status_code (snd (app.handle db salt now caller req)) < 500 ->
     fst (app.handle db salt now caller req) = db)
    /\ (reads_only req = true ->
        fst (app.handle db salt now caller req) = db).
Proof.
  intros db salt now caller req.
  destruct (read_routes_keep_session db caller) as (Rl & Rus & Ru & Rts & Rt).
  destruct req; unfold app.handle, app.POST_users, app.POST_login, app.GET_users,
    app.GET_user, app.PUT_user, app.DELETE_user, app.POST_tasks, app.GET_tasks,
    app.GET_task, app.PUT_task, app.DELETE_task, app.route;
    cbn [fst snd reads_only];
    (split; [|first [discriminate | intros _; auto]]).
  - unfold main.create_user, crud.create_user.
    destruct (crud.get_user_by_username db (schemas.UserCreate.username user));
      cbn; [reflexivity | lia].
  - intros _. apply Rl.
  - intros _. apply Rus.
  - intros _. apply Ru.
  - unfold main.update_user, crud.update_user.
    destruct (_ && _); [reflexivity|].
    destruct (crud.get_user db user_id); [|reflexivity].
    destruct (schemas.UserUpdate.password user) as [|[pw|]]; cbn [fst snd respond];
      try reflexivity;
      match goal with
      | |- context [match ?x with Some _ => _ | None => _ end] => destruct x
      end; cbn; lia.
  - unfold main.delete_user, crud.delete_user.
    destruct (_ && _); [reflexivity|].
    destruct (crud.get_user db user_id); [cbn; lia | reflexivity].
  - unfold main.create_task. cbn. lia.
  - intros _. reflexivity.
  - intros _. apply Rt.
  - unfold main.update_task.
    destruct (crud.get_task db task_id) as [t0|] eqn:E0; [|reflexivity].
    destruct (_ && _); [reflexivity|].
    rewrite (update_task_found db task_id t0 task E0).
    cbn [fst snd respond response_model.Optional_Task].
    match goal with
    | |- context [match ?x with Some _ => _ | None => _ end] => destruct x
    end; cbn; lia.
  - unfold main.delete_task.
    destruct (crud.get_task db task_id) as [t0|] eqn:E0; [|reflexivity].
    destruct (_ && _); [reflexivity|].
    destruct (crud.delete_task db task_id). cbn. lia.
Qed.

End NoWrite.

Lemma refusals_and_reads_write_nothing_witness :
  fst (app.handle (pwd_context := sample.pwd_context) (tokens := sample.tokens)
         sample.db "s" 0 sample.bob (app.delete_task 2))
  = sample.db.
Proof.
  destruct (refusals_and_reads_write_nothing
              (pwd_context := sample.pwd_context) (tokens := sample.tokens)
              sample.db "s" 0 sample.bob (app.delete_task 2)) as (Hrefused & _).
  apply Hrefused. simpl. lia.
Defined.

Lemma created_task_reads_back_witness :
  status_code
    (snd (app.GET_task
            (fst (app.POST_tasks sample.db (schemas.TaskCreate.mk "t" None) sample.bob))
            3 sample.alice)) = 403.
Proof.
  destruct (created_task_reads_back sample.db (schemas.TaskCreate.mk "t" None)
              sample.bob) as (_ & _ & _ & Hothers).
  apply (Hothers sample.alice). simpl. lia.
Defined.
